(** * Map-reduce document chains

    A shallow embedding of
    [libs/langchain/langchain/chains/combine_documents/map_reduce.py]:
    the LCEL constructors [create_map_documents_chain] and
    [create_map_reduce_documents_chain], the helper [_compile_document],
    and the legacy [MapReduceDocumentsChain] class with its three
    pre root validators, its two backward-compatibility properties and
    the [combine_docs] / [acombine_docs] pair.

    Python dictionaries are finite maps with string keys, exceptions are
    the error side of a [result] type, and the collaborators that live
    outside the file (the model-invocation object, prompt templates, the
    reduce chain) are section variables. *)

From stdpp Require Import base option list strings gmap fin_maps.

Open Scope string_scope.
Set Warnings "-register-all".

(** ** Data model *)

(** [langchain_core.documents.Document]: a text body and its metadata. *)
Record Document := mkDocument {
  page_content : string;
  metadata : gmap string string
}.

(** [BasePromptTemplate], as far as this file reads it. *)
Record BasePromptTemplate := mkPrompt {
  input_variables : list string;
  template : string
}.

(** Modelled from the spec: [LLMChain] of [chains/llm.py], the
    model-invocation object, as far as this file reads it: its prompt
    ([llm_chain.prompt]) and its designated output field
    ([llm_chain.output_key]). Its behaviour ([apply], [aapply]) is a
    collaborator, see the section variables below. *)
Record LLMChain := mkLLMChain {
  prompt : BasePromptTemplate;
  output_key : string
}.

(** Modelled from the spec: the subclasses of [BaseCombineDocumentsChain]
    ([combine_documents/base.py], [combine_documents/reduce.py]) as a
    tagged union: the composite [ReduceDocumentsChain], which bundles a
    combine sub-chain and an optional collapse sub-chain, against every
    other kind, which only carries the name of its class. *)
Inductive BaseCombineDocumentsChain :=
| ReduceDocumentsChain
    (combine_documents_chain : BaseCombineDocumentsChain)
    (collapse_documents_chain : option BaseCombineDocumentsChain)
| OtherCombineDocumentsChain (cls : string).

(** Python values of type [Any] that travel in the dictionaries. *)
Inductive value :=
| VNone
| VBool (b : bool)
| VInt (z : Z)
| VStr (s : string)
| VList (l : list value)
| VDoc (d : Document)
| VType (cls : string)
| VLLMChain (c : LLMChain)
| VChain (c : BaseCombineDocumentsChain).

(** The pieces of an f-string: literal text and formatted values. *)
Inductive fpart :=
| Lit (s : string)
| Fmt (v : value).

(** The exceptions the file can raise or let through. [ValidationError]
    is pydantic's: [loc] is the field it is reported under (the root key
    for a root validator) and [cause] the exception it wraps. *)
Inductive exn :=
| ValueError (msg : list fpart)
| KeyError (key : string)
| IndexError
| AttributeError (attr : string)
| ValidationError (loc : string) (cause : option exn)
| Upstream (what : string).

Inductive result (A : Type) :=
| Ok (a : A)
| Raise (e : exn).
Arguments Ok {A} a.
Arguments Raise {A} e.

#[global] Instance result_ret : MRet result := fun A a => Ok a.
#[global] Instance result_bind : MBind result := fun A B f m =>
  match m with
  | Ok a => f a
  | Raise e => Raise e
  end.
#[global] Instance result_fmap : FMap result := fun A B f m =>
  match m with
  | Ok a => Ok (f a)
  | Raise e => Raise e
  end.

(** ** Dictionaries and lists as Python reads them *)

(** [d[k]]: a missing key raises [KeyError]. *)
Definition getitem (d : gmap string value) (k : string) : result value :=
  match d !! k with
  | Some v => Ok v
  | None => Raise (KeyError k)
  end.

(** [d.get(k)]: a missing key reads as [None]. *)
Definition dict_get (d : gmap string value) (k : string) : value :=
  match d !! k with
  | Some v => v
  | None => VNone
  end.

(** [k in d]. *)
Definition contains (d : gmap string value) (k : string) : bool :=
  bool_decide (is_Some (d !! k)).

(** [{**d, **e}]: the entries of [e] win. *)
Definition dict_update (d e : gmap string value) : gmap string value := e ∪ d.

(** [l[i]] for an index produced by [enumerate]: out of range raises
    [IndexError]. *)
Definition list_getitem {A} (l : list A) (i : nat) : result A :=
  match l !! i with
  | Some x => Ok x
  | None => Raise IndexError
  end.

(** [enumerate(l)], counting from [n]. *)
Fixpoint enumerate_from {A} (n : nat) (l : list A) : list (nat * A) :=
  match l with
  | [] => []
  | x :: l' => (n, x) :: enumerate_from (S n) l'
  end.

Definition enumerate {A} (l : list A) : list (nat * A) := enumerate_from 0 l.

(** [Document(page_content=pc, metadata=md)]: the body is declared [str].
    A string is taken as it is; every other value is refused here, where
    pydantic would still turn a number into its text. *)
Definition new_Document (pc : value) (md : gmap string string) : result Document :=
  match pc with
  | VStr s => Ok (mkDocument s md)
  | _ => Raise (ValidationError "page_content" None)
  end.

(** [doc.metadata] on a value of type [Any]. *)
Definition attr_metadata (v : value) : result (gmap string string) :=
  match v with
  | VDoc d => Ok (metadata d)
  | _ => Raise (AttributeError "metadata")
  end.

(** ** LCEL runnables *)

(** A runnable is its [invoke]. *)
Definition Runnable (I O : Type) : Type := I -> result O.

(** [first | second]. *)
Definition pipe {A B C} (first : Runnable A B) (second : Runnable B C) : Runnable A C :=
  fun x => first x ≫= second.

Infix "|>" := pipe (at level 45, left associativity).

(** [r.with_name(name)] changes the name and nothing else. *)
Definition with_name {A B} (r : Runnable A B) (name : string) : Runnable A B := r.

(** [RunnablePassthrough.assign(key=r)]: the input dictionary with the
    output of [r] on that same dictionary stored under [key]. *)
Definition RunnablePassthrough_assign (key : string) (r : Runnable (gmap string value) value)
  : Runnable (gmap string value) (gmap string value) :=
  fun input => v ← r input; mret (<[key := v]> input).

(** [r.map()]: [r] on every element, results in the order of the inputs;
    the first failure in that order is the one raised. *)
Definition Runnable_map {A B} (r : Runnable A B) : Runnable (list A) (list B) :=
  mapM r.

(** Lines 103-179. *)
Definition create_map_reduce_documents_chain
    (map_documents_chain : Runnable (gmap string value) value)
    (reduce_documents_chain : Runnable (gmap string value) value)
    (collapse_documents_chain : option (Runnable (gmap string value) value))
  : Runnable (gmap string value) value :=
  let assign_mapped_docs :=
    with_name (RunnablePassthrough_assign "context" map_documents_chain)
              "assign_mapped_docs" in
  match collapse_documents_chain with
  | None => assign_mapped_docs |> reduce_documents_chain
  | Some collapse =>
      let assign_collapsed_docs :=
        with_name (RunnablePassthrough_assign "context" collapse)
                  "assign_collapsed_docs" in
      assign_mapped_docs |> assign_collapsed_docs |> reduce_documents_chain
  end.

(** ** The map-documents runnable *)

(** Modelled from the spec: [DOCUMENTS_KEY] of [combine_documents/base.py],
    the fixed slot name of the document list; the docstrings of this file
    name it "context". *)
Definition DOCUMENTS_KEY : string := "context".

(** [PromptTemplate.from_template("{page_content}")]. *)
Definition default_document_prompt : BasePromptTemplate :=
  mkPrompt ["page_content"] "{page_content}".

(** Lines 185-187. *)
Definition _compile_document (inputs : gmap string value) : result Document :=
  doc ← getitem inputs DOCUMENTS_KEY;
  pc ← getitem inputs "page_content";
  md ← attr_metadata doc;
  new_Document pc md.

Section MapDocuments.

(** What the model sees and what it answers. *)
Variables PromptValue Message : Type.

(** The helpers of [combine_documents/base.py] and the runnables of
    [langchain_core] this constructor composes. *)
Variable validate_prompt : BasePromptTemplate -> list string -> result unit.
Variable format_document_inputs :
  gmap string value -> BasePromptTemplate -> result (gmap string value).
Variable format_document_inputs_as_list :
  gmap string value -> option BasePromptTemplate -> result (list (gmap string value)).
Variable prompt_invoke : BasePromptTemplate -> Runnable (gmap string value) PromptValue.
Variable StrOutputParser : Runnable Message string.

(** [_format | prompt | llm | StrOutputParser()], line 88. *)
Definition map_content_chain
    (llm : Runnable PromptValue Message) (prompt : BasePromptTemplate)
    (document_prompt : option BasePromptTemplate) : Runnable (gmap string value) string :=
  let _document_prompt := default default_document_prompt document_prompt in
  let _format := fun inputs => format_document_inputs inputs _document_prompt in
  with_name (_format |> prompt_invoke prompt |> llm |> StrOutputParser) "map_content".

(** [assign_page_content | _compile_document], lines 91-95. *)
Definition map_doc_chain
    (llm : Runnable PromptValue Message) (prompt : BasePromptTemplate)
    (document_prompt : option BasePromptTemplate) : Runnable (gmap string value) Document :=
  let assign_page_content :=
    with_name
      (RunnablePassthrough_assign "page_content"
         (fun inputs => VStr <$> map_content_chain llm prompt document_prompt inputs))
      "assign_page_content" in
  with_name (assign_page_content |> _compile_document) "map_document".

(** Lines 29-100. The prompt is validated when the chain is created, so
    creation itself can fail. *)
Definition create_map_documents_chain
    (llm : Runnable PromptValue Message) (prompt : BasePromptTemplate)
    (document_prompt : option BasePromptTemplate)
  : result (Runnable (gmap string value) (list Document)) :=
  _ ← validate_prompt prompt [DOCUMENTS_KEY];
  let format_as_list :=
    fun inputs => format_document_inputs_as_list inputs document_prompt in
  mret (with_name
          (format_as_list |> Runnable_map (map_doc_chain llm prompt document_prompt))
          "map_documents_chain").

End MapDocuments.

(** ** The legacy chain *)

(** The fields declared at lines 268-277. *)
Record MapReduceDocumentsChain := mkMapReduceDocumentsChain {
  llm_chain : LLMChain;
  reduce_documents_chain : BaseCombineDocumentsChain;
  document_variable_name : string;
  return_intermediate_steps : bool
}.

(** [type(c)], by the name of the class. *)
Definition class_of (c : BaseCombineDocumentsChain) : value :=
  match c with
  | ReduceDocumentsChain _ _ => VType "ReduceDocumentsChain"
  | OtherCombineDocumentsChain cls => VType cls
  end.

(** Modelled from the spec: the constructor of [ReduceDocumentsChain]
    ([combine_documents/reduce.py]) as line 322 calls it, on values of
    type [Any]: the combine sub-chain must be a combine chain and the
    collapse sub-chain a combine chain or [None]. *)
Definition new_ReduceDocumentsChain (c k : value) : result BaseCombineDocumentsChain :=
  match c with
  | VChain combine =>
      match k with
      | VNone => Ok (ReduceDocumentsChain combine None)
      | VChain collapse => Ok (ReduceDocumentsChain combine (Some collapse))
      | _ => Raise (ValidationError "collapse_documents_chain" None)
      end
  | _ => Raise (ValidationError "combine_documents_chain" None)
  end.

(** *** Pre root validators *)

Definition both_chains_message : list fpart :=
  [Lit "Both `reduce_documents_chain` and `combine_document_chain` cannot be provided at the same time. `combine_document_chain` is deprecated, please only provide `reduce_documents_chain`"].

(** Lines 310-331. *)
Definition get_reduce_chain (values : gmap string value) : result (gmap string value) :=
  if contains values "combine_document_chain" then
    if contains values "reduce_documents_chain" then
      Raise (ValueError both_chains_message)
    else
      combine_chain ← getitem values "combine_document_chain";
      let collapse_chain := dict_get values "collapse_document_chain" in
      reduce_chain ← new_ReduceDocumentsChain combine_chain collapse_chain;
      let values := <["reduce_documents_chain" := VChain reduce_chain]> values in
      let values := delete "combine_document_chain" values in
      let values :=
        if contains values "collapse_document_chain"
        then delete "collapse_document_chain" values
        else values in
      mret values
  else mret values.

(** Lines 333-339. *)
Definition get_return_intermediate_steps (values : gmap string value)
  : result (gmap string value) :=
  if contains values "return_map_steps" then
    v ← getitem values "return_map_steps";
    let values := <["return_intermediate_steps" := v]> values in
    mret (delete "return_map_steps" values)
  else mret values.

(** [values["llm_chain"].prompt.input_variables]. *)
Definition llm_chain_input_variables (values : gmap string value) : result (list string) :=
  c ← getitem values "llm_chain";
  match c with
  | VLLMChain c => Ok (input_variables (prompt c))
  | _ => Raise (AttributeError "prompt")
  end.

(** [v in l] for a list of strings [l]. *)
Definition value_in (v : value) (l : list string) : bool :=
  match v with
  | VStr s => bool_decide (s ∈ l)
  | _ => false
  end.

Definition multiple_variables_message : list fpart :=
  [Lit "document_variable_name must be provided if there are multiple llm_chain input_variables"].

Definition not_found_message (name : value) (variables : list string) : list fpart :=
  [Lit "document_variable_name "; Fmt name;
   Lit " was not found in llm_chain input_variables: "; Fmt (VList (VStr <$> variables))].

(** Lines 341-360. *)
Definition get_default_document_variable_name (values : gmap string value)
  : result (gmap string value) :=
  if negb (contains values "document_variable_name") then
    llm_chain_variables ← llm_chain_input_variables values;
    if bool_decide (length llm_chain_variables = 1) then
      v ← list_getitem llm_chain_variables 0;
      mret (<["document_variable_name" := VStr v]> values)
    else Raise (ValueError multiple_variables_message)
  else
    llm_chain_variables ← llm_chain_input_variables values;
    name ← getitem values "document_variable_name";
    if negb (value_in name llm_chain_variables) then
      Raise (ValueError (not_found_message name llm_chain_variables))
    else mret values.

(** *** Construction *)

(** What pydantic does with an exception of a pre root validator: a
    [ValueError] (its own [ValidationError] is one) becomes the
    validation error of the construction, anything else passes through. *)
Definition root_validator_pre
    (validator : gmap string value -> result (gmap string value))
    (values : gmap string value) : result (gmap string value) :=
  match validator values with
  | Ok values' => Ok values'
  | Raise (ValueError msg) => Raise (ValidationError "__root__" (Some (ValueError msg)))
  | Raise (ValidationError loc cause) =>
      Raise (ValidationError "__root__" (Some (ValidationError loc cause)))
  | Raise e => Raise e
  end.

Definition own_fields : list string :=
  ["llm_chain"; "reduce_documents_chain"; "document_variable_name";
   "return_intermediate_steps"].

(** The fields declared at lines 268-277, read from the configuration
    once the validators have run. A value is taken at its declared kind;
    the conversions pydantic offers besides (a number or a word such as
    "yes" for a boolean) are refused here. *)
Definition field_llm_chain (values : gmap string value) : result LLMChain :=
  match values !! "llm_chain" with
  | Some (VLLMChain c) => Ok c
  | _ => Raise (ValidationError "llm_chain" None)
  end.

Definition field_reduce_documents_chain (values : gmap string value)
  : result BaseCombineDocumentsChain :=
  match values !! "reduce_documents_chain" with
  | Some (VChain c) => Ok c
  | _ => Raise (ValidationError "reduce_documents_chain" None)
  end.

Definition field_document_variable_name (values : gmap string value) : result string :=
  match values !! "document_variable_name" with
  | Some (VStr s) => Ok s
  | _ => Raise (ValidationError "document_variable_name" None)
  end.

Definition field_return_intermediate_steps (values : gmap string value) : result bool :=
  match values !! "return_intermediate_steps" with
  | None => Ok false
  | Some (VBool b) => Ok b
  | Some _ => Raise (ValidationError "return_intermediate_steps" None)
  end.

Section Construction.

(** The validation of everything the class does not declare itself:
    the fields of its base classes and, under [Extra.forbid], the
    rejection of unknown keys. It receives the configuration without
    the four fields of this class. *)
Variable validate_inherited : gmap string value -> result unit.

(** Field validation, after the pre root validators. *)
Definition validate_fields (values : gmap string value) : result MapReduceDocumentsChain :=
  llm ← field_llm_chain values;
  red ← field_reduce_documents_chain values;
  name ← field_document_variable_name values;
  steps ← field_return_intermediate_steps values;
  _ ← validate_inherited (foldr delete values own_fields);
  mret (mkMapReduceDocumentsChain llm red name steps).

(** Construction from keyword arguments: the three pre root validators
    in the order of the class body, then the fields. *)
Definition new_MapReduceDocumentsChain (values : gmap string value)
  : result MapReduceDocumentsChain :=
  values ← root_validator_pre get_reduce_chain values;
  values ← root_validator_pre get_return_intermediate_steps values;
  values ← root_validator_pre get_default_document_variable_name values;
  validate_fields values.

End Construction.

(** *** Backward-compatibility properties *)

(** A property reads the object it is called on; the object it leaves
    behind is returned next to its result. *)
Definition Property (A : Type) : Type :=
  MapReduceDocumentsChain -> result A * MapReduceDocumentsChain.

Definition no_attribute_message (c : BaseCombineDocumentsChain) : list fpart :=
  [Lit "`reduce_documents_chain` is of type "; Fmt (class_of c);
   Lit " so it does not have this attribute."].

(** Lines 362-375. *)
Definition collapse_document_chain : Property BaseCombineDocumentsChain := fun self =>
  match reduce_documents_chain self with
  | ReduceDocumentsChain combine collapse =>
      match collapse with
      | Some c => (Ok c, self)
      | None => (Ok combine, self)
      end
  | OtherCombineDocumentsChain _ as other =>
      (Raise (ValueError (no_attribute_message other)), self)
  end.

(** Lines 377-387. *)
Definition combine_document_chain : Property BaseCombineDocumentsChain := fun self =>
  match reduce_documents_chain self with
  | ReduceDocumentsChain combine _ => (Ok combine, self)
  | OtherCombineDocumentsChain _ as other =>
      (Raise (ValueError (no_attribute_message other)), self)
  end.

(** [isinstance(c, ReduceDocumentsChain)]. *)
Definition is_ReduceDocumentsChain (c : BaseCombineDocumentsChain) : bool :=
  match c with
  | ReduceDocumentsChain _ _ => true
  | OtherCombineDocumentsChain _ => false
  end.

(** *** Combining documents *)

(** The per-document input records of [combine_docs], line 403:
    the body under the document-variable name, then the extra fields. *)
Definition map_inputs (self : MapReduceDocumentsChain) (docs : list Document)
    (kwargs : gmap string value) : list (gmap string value) :=
  (fun d => dict_update (<[document_variable_name self := VStr (page_content d)]> ∅) kwargs)
    <$> docs.

(** The per-document input records of [acombine_docs], line 434: a
    one-entry dictionary unpacked first, then the extra fields. *)
Definition amap_inputs (self : MapReduceDocumentsChain) (docs : list Document)
    (kwargs : gmap string value) : list (gmap string value) :=
  (fun d =>
     dict_update
       (dict_update ∅ (<[document_variable_name self := VStr (page_content d)]> ∅))
       kwargs)
    <$> docs.

(** Lines 407-411 and 438-442: one document per map result, the body
    from the result and the metadata from the input document at the same
    index. *)
Definition result_docs (question_result_key : string) (docs : list Document)
    (map_results : list (gmap string value)) : result (list Document) :=
  mapM (fun ir : nat * gmap string value =>
          pc ← getitem ir.2 question_result_key;
          d ← list_getitem docs ir.1;
          new_Document pc (metadata d))
       (enumerate map_results).

(** Lines 416 and 447. *)
Definition intermediate_steps (question_result_key : string)
    (map_results : list (gmap string value)) : result (list value) :=
  mapM (fun r => getitem r question_result_key) map_results.

Section CombineDocs.

(** Callback handlers are handed on untouched. *)
Variable Callbacks : Type.

(** [LLMChain.apply] and [LLMChain.aapply]. *)
Variable LLMChain_apply LLMChain_aapply :
  LLMChain -> list (gmap string value) -> Callbacks -> result (list (gmap string value)).

(** [combine_docs] and [acombine_docs] of the reduce chain. *)
Variable reduce_combine_docs reduce_acombine_docs :
  BaseCombineDocumentsChain -> list Document -> option Z -> Callbacks ->
  gmap string value -> result (string * gmap string value).

(** Lines 415-418 and 446-449. *)
Definition add_intermediate_steps (self : MapReduceDocumentsChain)
    (question_result_key : string) (map_results : list (gmap string value))
    (reduced : string * gmap string value) : result (string * gmap string value) :=
  let '(result, extra_return_dict) := reduced in
  if return_intermediate_steps self then
    steps ← intermediate_steps question_result_key map_results;
    mret (result, <["intermediate_steps" := VList steps]> extra_return_dict)
  else mret (result, extra_return_dict).

(** Lines 389-418. *)
Definition combine_docs (self : MapReduceDocumentsChain) (docs : list Document)
    (token_max : option Z) (callbacks : Callbacks) (kwargs : gmap string value)
  : result (string * gmap string value) :=
  map_results ← LLMChain_apply (llm_chain self) (map_inputs self docs kwargs) callbacks;
  let question_result_key := output_key (llm_chain self) in
  rdocs ← result_docs question_result_key docs map_results;
  reduced ← reduce_combine_docs (reduce_documents_chain self) rdocs token_max callbacks kwargs;
  add_intermediate_steps self question_result_key map_results reduced.

(** Lines 420-449. *)
Definition acombine_docs (self : MapReduceDocumentsChain) (docs : list Document)
    (token_max : option Z) (callbacks : Callbacks) (kwargs : gmap string value)
  : result (string * gmap string value) :=
  map_results ← LLMChain_aapply (llm_chain self) (amap_inputs self docs kwargs) callbacks;
  let question_result_key := output_key (llm_chain self) in
  rdocs ← result_docs question_result_key docs map_results;
  reduced ← reduce_acombine_docs (reduce_documents_chain self) rdocs token_max callbacks kwargs;
  add_intermediate_steps self question_result_key map_results reduced.

End CombineDocs.

(** *** The migrated configuration *)

(** The configuration after the migration of the legacy fields. *)
Definition migrated (values : gmap string value) (reduce_chain : BaseCombineDocumentsChain)
  : gmap string value :=
  delete "collapse_document_chain"
    (delete "combine_document_chain"
       (<["reduce_documents_chain" := VChain reduce_chain]> values)).

(** *** Output keys and output schema *)

(** The field types the output schema uses: [str] and [List[str]]. *)
Inductive field_type :=
| TStr
| TListStr.

Section OutputSchema.

(** A model class, and pydantic's [create_model]: a name and the field
    definitions given as keyword arguments, each a type with its
    default. Which names it takes as fields, and which it refuses, is
    its own business. *)
Variable Model : Type.
Variable create_model : string -> gmap string (field_type * value) -> result Model.

(** Lines 279-291. [super_get_output_schema] is what the base class
    answers and [self_output_key] the inherited field
    [self.output_key]. *)
Definition get_output_schema (super_get_output_schema : result Model)
    (self_output_key : string) (self : MapReduceDocumentsChain) : result Model :=
  if return_intermediate_steps self then
    create_model "MapReduceDocumentsOutput"
      (<["intermediate_steps" := (TListStr, VNone)]>
         (<[self_output_key := (TStr, VNone)]> ∅))
  else super_get_output_schema.

End OutputSchema.

(** Lines 293-302. [super_output_keys] is what the base class answers. *)
Definition output_keys (super_output_keys : list string)
    (self : MapReduceDocumentsChain) : list string :=
  let _output_keys := super_output_keys in
  if return_intermediate_steps self
  then _output_keys ++ ["intermediate_steps"]
  else _output_keys.

(** Lines 451-453. *)
Definition _chain_type (self : MapReduceDocumentsChain) : string :=
  "map_reduce_documents_chain".

(** ** Sample configurations and collaborators *)

(** Two documents with their sources, a model-invocation object with a
    one-variable prompt, and a chain over them. *)
Definition doc_red : Document := mkDocument "Jesse loves red" {["source" := "a.txt"]}.
Definition doc_green : Document := mkDocument "Jamal loves green" {["source" := "b.txt"]}.
Definition sample_docs : list Document := [doc_red; doc_green].

Definition sample_llm_chain : LLMChain :=
  mkLLMChain (mkPrompt ["context"] "Summarize: {context}") "text".

Definition stuff_chain : BaseCombineDocumentsChain :=
  OtherCombineDocumentsChain "StuffDocumentsChain".

Definition sample_chain (steps : bool) : MapReduceDocumentsChain :=
  mkMapReduceDocumentsChain sample_llm_chain (ReduceDocumentsChain stuff_chain None)
    "context" steps.

(** A model-invocation object that answers each record with the text it
    found under "context". *)
Definition echo_apply (c : LLMChain) (inputs : list (gmap string value)) (callbacks : unit)
  : result (list (gmap string value)) :=
  Ok ((fun r => <[output_key c := dict_get r "context"]> ∅) <$> inputs).

(** A reduce chain that joins the bodies and returns no auxiliary
    entries. *)
Definition join_combine_docs (c : BaseCombineDocumentsChain) (docs : list Document)
    (token_max : option Z) (callbacks : unit) (kwargs : gmap string value)
  : result (string * gmap string value) :=
  Ok (String.concat "; " (page_content <$> docs), ∅).

Definition sample_results : list (gmap string value) :=
  [<["text" := VStr "Jesse loves red"]> ∅; <["text" := VStr "Jamal loves green"]> ∅].

Definition sample_bodies : list string := ["Jesse loves red"; "Jamal loves green"].

(** Modelled from the spec: [validate_prompt] of [combine_documents/base.py],
    which is not in this file; the prompt must declare the required
    variables. *)
Definition sample_validate_prompt (p : BasePromptTemplate) (required : list string)
  : result unit :=
  if forallb (fun k => bool_decide (k ∈ input_variables p)) required
  then Ok tt
  else Raise (ValueError [Lit "Prompt must accept "; Fmt (VList (VStr <$> required))]).

(** Modelled from the spec: [format_document_inputs] of
    [combine_documents/base.py], which is not in this file; the document
    under the documents key is rendered to a string by the document
    formatter, here to its body. *)
Definition sample_format_document_inputs (inputs : gmap string value)
    (document_prompt : BasePromptTemplate) : result (gmap string value) :=
  doc ← getitem inputs DOCUMENTS_KEY;
  match doc with
  | VDoc d => Ok (<[DOCUMENTS_KEY := VStr (page_content d)]> inputs)
  | _ => Raise (AttributeError "page_content")
  end.

(** Modelled from the spec: [format_document_inputs_as_list] of
    [combine_documents/base.py], which is not in this file; one record
    per document, holding that document under the documents key next to
    the extra fields of the input. *)
Definition sample_format_document_inputs_as_list (inputs : gmap string value)
    (document_prompt : option BasePromptTemplate) : result (list (gmap string value)) :=
  docs ← getitem inputs DOCUMENTS_KEY;
  match docs with
  | VList ds => Ok ((fun d => <[DOCUMENTS_KEY := d]> inputs) <$> ds)
  | _ => Raise (AttributeError "__iter__")
  end.

(** A prompt that puts the rendered document after its template, a model
    that repeats its prompt and a parser that returns the text. *)
Definition sample_prompt_invoke (p : BasePromptTemplate)
  : Runnable (gmap string value) string :=
  fun inputs =>
    s ← getitem inputs DOCUMENTS_KEY;
    match s with
    | VStr s => Ok (template p +:+ s)
    | _ => Raise (KeyError DOCUMENTS_KEY)
    end.

Definition sample_llm : Runnable string string := fun p => Ok p.
Definition sample_parser : Runnable string string := fun m => Ok m.

Definition sample_prompt : BasePromptTemplate := mkPrompt ["context"; "question"] "Extract: ".

Definition sample_inputs : gmap string value :=
  <["context" := VList [VDoc doc_red; VDoc doc_green]]>
    (<["question" := VStr "Who loves green?"]> ∅).

Definition sample_records : list (gmap string value) :=
  [<["context" := VDoc doc_red]> sample_inputs; <["context" := VDoc doc_green]> sample_inputs].

Definition sample_answers : list string :=
  ["Extract: Jesse loves red"; "Extract: Jamal loves green"].

(** No inherited field is configured in the instances below. *)
Definition no_inherited_fields (rest : gmap string value) : result unit :=
  match map_to_list rest with
  | [] => Ok tt
  | _ => Raise (ValidationError "extra" None)
  end.

(** A collapse chain that hands back the documents it is given. *)
Definition identity_collapse : Runnable (gmap string value) value :=
  fun rec => getitem rec "context".

Definition sample_map_chain : Runnable (gmap string value) value :=
  fun rec => getitem rec "context".

Definition sample_reduce_chain : Runnable (gmap string value) value :=
  fun rec => docs ← getitem rec "context"; Ok (VList [docs; dict_get rec "question"]).

(** A legacy configuration, one with both fields, and the chains they
    lead to. *)
Definition collapse_chain : BaseCombineDocumentsChain :=
  OtherCombineDocumentsChain "RefineDocumentsChain".

Definition legacy_values : gmap string value :=
  <["combine_document_chain" := VChain stuff_chain]>
    (<["collapse_document_chain" := VChain collapse_chain]>
       (<["llm_chain" := VLLMChain sample_llm_chain]> ∅)).

Definition conflicting_values : gmap string value :=
  <["reduce_documents_chain" := VChain stuff_chain]> legacy_values.

(** Configurations for the document-variable name: left to the
    validator, ambiguous, and unknown to the prompt. *)
Definition default_name_values : gmap string value :=
  <["llm_chain" := VLLMChain sample_llm_chain]>
    (<["reduce_documents_chain" := VChain stuff_chain]> ∅).




(** A chain whose reduce chain is not the composite kind. *)
Definition stuff_only_chain : MapReduceDocumentsChain :=
  mkMapReduceDocumentsChain sample_llm_chain stuff_chain "context" false.

(** A model-invocation object that answers with a fixed list of results,
    one that fails, and a reduce chain that fails. *)
Definition fixed_apply (results : list (gmap string value)) (c : LLMChain)
    (inputs : list (gmap string value)) (callbacks : unit)
  : result (list (gmap string value)) :=
  Ok results.

Definition failing_apply (c : LLMChain) (inputs : list (gmap string value))
    (callbacks : unit) : result (list (gmap string value)) :=
  Raise (Upstream "model").

Definition failing_combine_docs (c : BaseCombineDocumentsChain) (docs : list Document)
    (token_max : option Z) (callbacks : unit) (kwargs : gmap string value)
  : result (string * gmap string value) :=
  Raise (Upstream "reduce").

(** A model that fails on the second sample document. *)
Definition picky_llm : Runnable string string :=
  fun p => if String.eqb p "Extract: Jamal loves green"
           then Raise (Upstream "model")
           else Ok p.

(** A prompt without the documents variable. *)
Definition question_only_prompt : BasePromptTemplate := mkPrompt ["question"] "{question}".

(** A complete configuration, one with both spellings of the flag, and
    one without a model-invocation object. *)
Definition full_values : gmap string value :=
  <["document_variable_name" := VStr "context"]> default_name_values.

Definition flag_values : gmap string value :=
  <["return_map_steps" := VBool true]>
    (<["return_intermediate_steps" := VBool false]> default_name_values).

Definition no_llm_chain_values : gmap string value :=
  <["reduce_documents_chain" := VChain stuff_chain]> ∅.

Definition composite_chain : MapReduceDocumentsChain :=
  mkMapReduceDocumentsChain sample_llm_chain
    (ReduceDocumentsChain stuff_chain (Some collapse_chain)) "context" false.

(** The sample documents under other metadata. *)
Definition other_docs : list Document :=
  [mkDocument "Jesse loves red" ∅; mkDocument "Jamal loves green" {["page" := "7"]}].

(** A map chain that does not look at its input. *)
Definition constant_map_chain : Runnable (gmap string value) value :=
  fun rec => Ok (VList [VDoc doc_red]).

(** ** Facts about the error monad *)

Lemma bind_Ok {A B} (a : A) (k : A -> result B) : (Ok a ≫= k) = k a.
Proof. reflexivity. Qed.

Lemma bind_Raise {A B} (e : exn) (k : A -> result B) : (Raise e ≫= k) = Raise e.
Proof. reflexivity. Qed.

Lemma bind_assoc {A B C} (m : result A) (f : A -> result B) (g : B -> result C) :
  ((m ≫= f) ≫= g) = (m ≫= fun x => f x ≫= g).
Proof. destruct m; reflexivity. Qed.

Lemma pipe_eq {A B C} (f : Runnable A B) (g : Runnable B C) x :
  (f |> g) x = (f x ≫= g).
Proof. reflexivity. Qed.

Lemma assign_eq key r input :
  RunnablePassthrough_assign key r input = (r input ≫= fun v => Ok (<[key := v]> input)).
Proof. reflexivity. Qed.

(** ** Lists under the error monad *)

Lemma mapM_cons {A B} (f : A -> result B) x l :
  mapM f (x :: l) = (y ← f x; k ← mapM f l; Ok (y :: k)).
Proof. reflexivity. Qed.

(** [mapM] succeeds with the element-wise results when every call does. *)
Lemma mapM_Forall2 {A B} (f : A -> result B) l k :
  Forall2 (fun a b => f a = Ok b) l k → mapM f l = Ok k.
Proof.
  induction 1 as [|a b l k Hab _ IH]; [reflexivity|].
  by rewrite mapM_cons, Hab, bind_Ok, IH.
Qed.

(** Conversely, a successful [mapM] is element-wise. *)
Lemma mapM_Ok_inv {A B} (f : A -> result B) l k :
  mapM f l = Ok k → Forall2 (fun a b => f a = Ok b) l k.
Proof.
  revert k. induction l as [|a l IH]; intros k Hk.
  - injection Hk as <-. constructor.
  - rewrite mapM_cons in Hk.
    destruct (f a) as [b|e] eqn:Hb; [|discriminate].
    rewrite bind_Ok in Hk.
    destruct (mapM f l) as [k'|e] eqn:Hl; [|discriminate].
    injection Hk as <-. constructor; [done|]. by apply IH.
Qed.

Lemma getitem_Some (d : gmap string value) k v : d !! k = Some v → getitem d k = Ok v.
Proof. intros H. unfold getitem. by rewrite H. Qed.

Lemma getitem_None (d : gmap string value) k : d !! k = None → getitem d k = Raise (KeyError k).
Proof. intros H. unfold getitem. by rewrite H. Qed.

Lemma list_getitem_Some {A} (l : list A) i x : l !! i = Some x → list_getitem l i = Ok x.
Proof. intros H. unfold list_getitem. by rewrite H. Qed.

Lemma contains_true (d : gmap string value) k v : d !! k = Some v → contains d k = true.
Proof. intros H. unfold contains. apply bool_decide_eq_true. eauto. Qed.

Lemma contains_false (d : gmap string value) k : d !! k = None → contains d k = false.
Proof.
  intros H. unfold contains. apply bool_decide_eq_false.
  rewrite H. by intros [? ?].
Qed.

Lemma enumerate_from_cons {A} n (x : A) l :
  enumerate_from n (x :: l) = (n, x) :: enumerate_from (S n) l.
Proof. reflexivity. Qed.

(** ** The map step of the legacy chain *)

(** With map results aligned to the documents, each carrying a string
    under the result key, the rebuilt list pairs the i-th body with the
    i-th metadata. [pre] is the part of the document list already
    passed. *)
Lemma result_docs_from key (pre docs : list Document)
    (map_results : list (gmap string value)) (bodies : list string) :
  length docs = length map_results →
  Forall2 (fun r s => r !! key = Some (VStr s)) map_results bodies →
  mapM (fun ir : nat * gmap string value =>
          pc ← getitem ir.2 key;
          d ← list_getitem (pre ++ docs) ir.1;
          new_Document pc (metadata d))
       (enumerate_from (length pre) map_results)
  = Ok (zip_with mkDocument bodies (metadata <$> docs)).
Proof.
  intros Hlen Hall. revert pre docs Hlen.
  induction Hall as [|r s rs ss Hr _ IH]; intros pre docs Hlen.
  - reflexivity.
  - destruct docs as [|d docs]; [discriminate|].
    rewrite enumerate_from_cons, mapM_cons. cbv beta. cbn [fst snd].
    rewrite (getitem_Some _ _ _ Hr), bind_Ok.
    rewrite (list_getitem_Some (pre ++ d :: docs)%list (length pre) d)
      by (by apply list_lookup_middle).
    rewrite bind_Ok. cbn [new_Document]. rewrite bind_Ok.
    specialize (IH (pre ++ [d])%list docs).
    rewrite length_app, <- (assoc_L (++)) in IH. cbn [length app] in IH.
    rewrite Nat.add_1_r in IH.
    rewrite IH by (cbn in Hlen; lia). reflexivity.
Qed.

Lemma result_docs_aligned key (docs : list Document)
    (map_results : list (gmap string value)) (bodies : list string) :
  length docs = length map_results →
  Forall2 (fun r s => r !! key = Some (VStr s)) map_results bodies →
  result_docs key docs map_results = Ok (zip_with mkDocument bodies (metadata <$> docs)).
Proof. intros Hlen Hall. exact (result_docs_from key [] docs map_results bodies Hlen Hall). Qed.

Lemma intermediate_steps_aligned key (map_results : list (gmap string value))
    (bodies : list string) :
  Forall2 (fun r s => r !! key = Some (VStr s)) map_results bodies →
  intermediate_steps key map_results = Ok (VStr <$> bodies).
Proof.
  intros Hall. apply mapM_Forall2. apply Forall2_fmap_r.
  eapply Forall2_impl; [exact Hall|].
  intros r s Hr. unfold getitem. by rewrite Hr.
Qed.

(** The rebuilt list, index by index. *)
Lemma zipped_docs_lookup (bodies : list string) (docs : list Document) i d s :
  docs !! i = Some d → bodies !! i = Some s →
  zip_with mkDocument bodies (metadata <$> docs) !! i = Some (mkDocument s (metadata d)).
Proof.
  intros Hd Hs. rewrite lookup_zip_with, Hs, list_lookup_fmap, Hd. reflexivity.
Qed.

Lemma zipped_docs_length (bodies : list string) (docs : list Document) :
  length bodies = length docs →
  length (zip_with mkDocument bodies (metadata <$> docs)) = length docs.
Proof.
  intros Hlen. rewrite length_zip_with_l_eq; [done|]. by rewrite length_fmap.
Qed.

Lemma zipped_docs_bodies (bodies : list string) (docs : list Document) :
  length bodies = length docs →
  page_content <$> zip_with mkDocument bodies (metadata <$> docs) = bodies.
Proof.
  revert docs. induction bodies as [|s bodies IH]; intros [|d docs] Hlen;
    try discriminate; [reflexivity|].
  cbn. f_equal. apply IH. cbn in Hlen. lia.
Qed.

Lemma aligned_bodies_lookup {A} (P : A -> string -> Prop) (docs : list Document)
    (xs : list A) (bodies : list string) i d :
  length docs = length xs → Forall2 P xs bodies → docs !! i = Some d →
  ∃ s, bodies !! i = Some s.
Proof.
  intros Hlen Hall Hd.
  apply Forall2_length in Hall.
  apply lookup_lt_Some in Hd.
  destruct (lookup_lt_is_Some_2 bodies i) as [s Hs]; [lia|]. eauto.
Qed.

Section CombineDocsFacts.

Variable Callbacks : Type.
Variable apply :
  LLMChain -> list (gmap string value) -> Callbacks -> result (list (gmap string value)).
Variable reduce :
  BaseCombineDocumentsChain -> list Document -> option Z -> Callbacks ->
  gmap string value -> result (string * gmap string value).

(** Once the model has answered with aligned results, [combine_docs]
    is the reduce chain on the rebuilt documents followed by the
    optional surfacing of the raw outputs. *)
Lemma combine_docs_mapped self docs token_max callbacks kwargs map_results bodies :
  apply (llm_chain self) (map_inputs self docs kwargs) callbacks = Ok map_results →
  length docs = length map_results →
  Forall2 (fun r s => r !! output_key (llm_chain self) = Some (VStr s)) map_results bodies →
  combine_docs Callbacks apply reduce self docs token_max callbacks kwargs =
    (reduce (reduce_documents_chain self)
            (zip_with mkDocument bodies (metadata <$> docs)) token_max callbacks kwargs
     ≫= add_intermediate_steps self (output_key (llm_chain self)) map_results).
Proof.
  intros Happly Hlen Hall. unfold combine_docs.
  rewrite Happly, bind_Ok. cbv zeta.
  by rewrite (result_docs_aligned _ _ _ _ Hlen Hall), bind_Ok.
Qed.

Lemma add_intermediate_steps_aligned self key map_results bodies res
    (extra : gmap string value) :
  Forall2 (fun r s => r !! key = Some (VStr s)) map_results bodies →
  add_intermediate_steps self key map_results (res, extra) =
    Ok (res, if return_intermediate_steps self
             then <["intermediate_steps" := VList (VStr <$> bodies)]> extra
             else extra).
Proof.
  intros Hall. unfold add_intermediate_steps.
  destruct (return_intermediate_steps self); [|reflexivity].
  by rewrite (intermediate_steps_aligned _ _ _ Hall), bind_Ok.
Qed.

(** The two ways of writing the per-document record build the same
    dictionary. *)
Lemma amap_inputs_map_inputs self docs kwargs :
  amap_inputs self docs kwargs = map_inputs self docs kwargs.
Proof.
  unfold amap_inputs, map_inputs. apply list_fmap_ext. intros _ d _.
  unfold dict_update. by rewrite (right_id_L ∅ (∪)).
Qed.

(** [acombine_docs] is [combine_docs] over the asynchronous forms of
    the collaborators. *)
Lemma acombine_docs_combine_docs self docs token_max callbacks kwargs :
  acombine_docs Callbacks apply reduce self docs token_max callbacks kwargs =
  combine_docs Callbacks apply reduce self docs token_max callbacks kwargs.
Proof. unfold acombine_docs, combine_docs. by rewrite amap_inputs_map_inputs. Qed.

End CombineDocsFacts.

Section MapDocumentsFacts.

Variables PromptValue Message : Type.
Variable validate_prompt : BasePromptTemplate -> list string -> result unit.
Variable format_document_inputs :
  gmap string value -> BasePromptTemplate -> result (gmap string value).
Variable format_document_inputs_as_list :
  gmap string value -> option BasePromptTemplate -> result (list (gmap string value)).
Variable prompt_invoke : BasePromptTemplate -> Runnable (gmap string value) PromptValue.
Variable StrOutputParser : Runnable Message string.

(** One record through [map_doc_chain]: the model's text becomes the
    body and the metadata is the one of the document in the record. *)
Lemma map_doc_chain_compiles llm prompt document_prompt (r : gmap string value) d s :
  r !! DOCUMENTS_KEY = Some (VDoc d) →
  map_content_chain PromptValue Message format_document_inputs prompt_invoke
    StrOutputParser llm prompt document_prompt r = Ok s →
  map_doc_chain PromptValue Message format_document_inputs prompt_invoke
    StrOutputParser llm prompt document_prompt r = Ok (mkDocument s (metadata d)).
Proof.
  intros Hd Hs. unfold map_doc_chain, with_name.
  rewrite pipe_eq, assign_eq. cbv beta. rewrite Hs.
  change (VStr <$> Ok s) with (Ok (VStr s)). rewrite !bind_Ok.
  unfold _compile_document.
  rewrite (getitem_Some _ DOCUMENTS_KEY (VDoc d)), bind_Ok
    by (by rewrite lookup_insert_ne).
  rewrite (getitem_Some _ "page_content" (VStr s)), bind_Ok
    by apply lookup_insert_eq.
  reflexivity.
Qed.

Lemma map_doc_chain_aligned llm prompt document_prompt
    (docs : list Document) (recs : list (gmap string value)) (bodies : list string) :
  Forall2 (fun d r => r !! DOCUMENTS_KEY = Some (VDoc d)) docs recs →
  Forall2 (fun r s =>
             map_content_chain PromptValue Message format_document_inputs prompt_invoke
               StrOutputParser llm prompt document_prompt r = Ok s) recs bodies →
  Runnable_map
    (map_doc_chain PromptValue Message format_document_inputs prompt_invoke
       StrOutputParser llm prompt document_prompt) recs
  = Ok (zip_with mkDocument bodies (metadata <$> docs)).
Proof.
  intros Hdocs Hbodies. unfold Runnable_map. apply mapM_Forall2.
  revert docs Hdocs.
  induction Hbodies as [|r s recs bodies Hs _ IH]; intros docs Hdocs.
  - inversion Hdocs; subst. constructor.
  - inversion Hdocs as [|d ? docs' ? Hd Hrest]; subst.
    cbn. constructor; [|by apply IH].
    by apply map_doc_chain_compiles.
Qed.

End MapDocumentsFacts.

(** ** The map step *)

(** C1: the map step returns one document per input document, in the
    same order; the i-th output carries the metadata of the i-th input
    and the model's output for it as body. This holds for the runnable
    built by [create_map_documents_chain], given that the list helper
    hands out one record per document and the model answers on each, and
    for the document list [combine_docs] hands to the reduce chain, given
    that the model-invocation object answers with results aligned to its
    inputs. *)
Theorem map_step_keeps_length_and_metadata :
  (∀ (PromptValue Message : Type) validate_prompt format_document_inputs
     format_document_inputs_as_list
     (prompt_invoke : BasePromptTemplate -> Runnable (gmap string value) PromptValue)
     (StrOutputParser : Runnable Message string) llm prompt document_prompt
     (inputs : gmap string value) (docs : list Document)
     (recs : list (gmap string value)) (bodies : list string),
     validate_prompt prompt [DOCUMENTS_KEY] = Ok tt →
     format_document_inputs_as_list inputs document_prompt = Ok recs →
     Forall2 (fun d r => r !! DOCUMENTS_KEY = Some (VDoc d)) docs recs →
     Forall2 (fun r s =>
                map_content_chain PromptValue Message format_document_inputs prompt_invoke
                  StrOutputParser llm prompt document_prompt r = Ok s) recs bodies →
     ∃ chain out,
       create_map_documents_chain PromptValue Message validate_prompt
         format_document_inputs format_document_inputs_as_list prompt_invoke
         StrOutputParser llm prompt document_prompt = Ok chain
       ∧ chain inputs = Ok out
       ∧ length out = length docs
       ∧ ∀ i d, docs !! i = Some d →
           ∃ s, bodies !! i = Some s ∧ out !! i = Some (mkDocument s (metadata d)))
  ∧
  (∀ (Callbacks : Type) apply reduce self (docs : list Document) token_max
     (callbacks : Callbacks) kwargs (map_results : list (gmap string value))
     (bodies : list string),
     apply (llm_chain self) (map_inputs self docs kwargs) callbacks = Ok map_results →
     length docs = length map_results →
     Forall2 (fun r s => r !! output_key (llm_chain self) = Some (VStr s))
             map_results bodies →
     ∃ out,
       result_docs (output_key (llm_chain self)) docs map_results = Ok out
       ∧ combine_docs Callbacks apply reduce self docs token_max callbacks kwargs =
           (reduce (reduce_documents_chain self) out token_max callbacks kwargs
            ≫= add_intermediate_steps self (output_key (llm_chain self)) map_results)
       ∧ length out = length docs
       ∧ ∀ i d, docs !! i = Some d →
           ∃ s, bodies !! i = Some s ∧ out !! i = Some (mkDocument s (metadata d))).
Proof.
  split.
  - intros PV Msg vp fdi fdil pinv parser llm prompt dp inputs docs recs bodies
      Hvalid Hsplit Hdocs Hbodies.
    pose proof (Forall2_length _ _ _ Hdocs) as Hlen1.
    pose proof (Forall2_length _ _ _ Hbodies) as Hlen2.
    eexists _, (zip_with mkDocument bodies (metadata <$> docs)).
    split; [|split; [|split]].
    + unfold create_map_documents_chain. rewrite Hvalid, bind_Ok. reflexivity.
    + unfold with_name. rewrite pipe_eq. cbv beta. rewrite Hsplit, bind_Ok.
      by apply map_doc_chain_aligned.
    + apply zipped_docs_length. congruence.
    + intros i d Hd.
      destruct (aligned_bodies_lookup _ docs recs bodies i d Hlen1 Hbodies Hd) as [s Hs].
      exists s. split; [done|]. by apply zipped_docs_lookup.
  - intros Callbacks apply reduce self docs token_max callbacks kwargs map_results
      bodies Happly Hlen Hall.
    pose proof (Forall2_length _ _ _ Hall) as Hlen2.
    exists (zip_with mkDocument bodies (metadata <$> docs)).
    split; [|split; [|split]].
    + by apply result_docs_aligned.
    + by apply combine_docs_mapped.
    + apply zipped_docs_length. congruence.
    + intros i d Hd.
      destruct (aligned_bodies_lookup _ docs map_results bodies i d Hlen Hall Hd) as [s Hs].
      exists s. split; [done|]. by apply zipped_docs_lookup.
Qed.

(** ** Intermediate steps *)

(** C5: with [return_intermediate_steps] set, the auxiliary dictionary
    of [combine_docs] and of [acombine_docs] holds under
    "intermediate_steps" the raw model outputs, one per input document in
    input order, which are the bodies of the mapped documents; with the
    flag unset the dictionary of the reduce chain is returned as it
    is. *)
Theorem intermediate_steps_surfaced
    (Callbacks : Type) apply aapply reduce areduce self (docs : list Document)
    token_max (callbacks : Callbacks) (kwargs : gmap string value)
    (map_results : list (gmap string value)) (bodies : list string)
    (res : string) (extra : gmap string value) :
  length docs = length map_results →
  Forall2 (fun r s => r !! output_key (llm_chain self) = Some (VStr s))
          map_results bodies →
  length bodies = length docs
  ∧ page_content <$> zip_with mkDocument bodies (metadata <$> docs) = bodies
  ∧ (apply (llm_chain self) (map_inputs self docs kwargs) callbacks = Ok map_results →
     reduce (reduce_documents_chain self)
       (zip_with mkDocument bodies (metadata <$> docs)) token_max callbacks kwargs
       = Ok (res, extra) →
     combine_docs Callbacks apply reduce self docs token_max callbacks kwargs =
       Ok (res, if return_intermediate_steps self
                then <["intermediate_steps" := VList (VStr <$> bodies)]> extra
                else extra))
  ∧ (aapply (llm_chain self) (amap_inputs self docs kwargs) callbacks = Ok map_results →
     areduce (reduce_documents_chain self)
       (zip_with mkDocument bodies (metadata <$> docs)) token_max callbacks kwargs
       = Ok (res, extra) →
     acombine_docs Callbacks aapply areduce self docs token_max callbacks kwargs =
       Ok (res, if return_intermediate_steps self
                then <["intermediate_steps" := VList (VStr <$> bodies)]> extra
                else extra)).
Proof.
  intros Hlen Hall.
  pose proof (Forall2_length _ _ _ Hall) as Hlen2.
  assert (length bodies = length docs) as Hlen3 by congruence.
  split; [done|]. split; [by apply zipped_docs_bodies|]. split.
  - intros Happly Hreduce.
    rewrite (combine_docs_mapped _ _ _ _ _ _ _ _ _ _ Happly Hlen Hall).
    rewrite Hreduce, bind_Ok. by apply add_intermediate_steps_aligned.
  - intros Happly Hreduce.
    rewrite acombine_docs_combine_docs.
    rewrite amap_inputs_map_inputs in Happly.
    rewrite (combine_docs_mapped _ _ _ _ _ _ _ _ _ _ Happly Hlen Hall).
    rewrite Hreduce, bind_Ok. by apply add_intermediate_steps_aligned.
Qed.

(** ** Synchronous and asynchronous combination *)

(** C6: when the asynchronous forms of the collaborators agree with the
    synchronous ones, [acombine_docs] builds the same per-document input
    records as [combine_docs], rebuilds the same documents from the same
    map results and returns the same pair. *)
Theorem acombine_docs_agrees
    (Callbacks : Type) apply aapply reduce areduce self (docs : list Document)
    token_max (callbacks : Callbacks) (kwargs : gmap string value) :
  (∀ c inputs cb, aapply c inputs cb = apply c inputs cb) →
  (∀ c ds tm cb kw, areduce c ds tm cb kw = reduce c ds tm cb kw) →
  amap_inputs self docs kwargs = map_inputs self docs kwargs
  ∧ aapply (llm_chain self) (amap_inputs self docs kwargs) callbacks
    = apply (llm_chain self) (map_inputs self docs kwargs) callbacks
  ∧ (aapply (llm_chain self) (amap_inputs self docs kwargs) callbacks
       ≫= result_docs (output_key (llm_chain self)) docs)
    = (apply (llm_chain self) (map_inputs self docs kwargs) callbacks
       ≫= result_docs (output_key (llm_chain self)) docs)
  ∧ acombine_docs Callbacks aapply areduce self docs token_max callbacks kwargs
    = combine_docs Callbacks apply reduce self docs token_max callbacks kwargs.
Proof.
  intros Happly Hreduce.
  split; [apply amap_inputs_map_inputs|].
  split; [by rewrite amap_inputs_map_inputs, Happly|].
  split; [by rewrite amap_inputs_map_inputs, Happly|].
  rewrite acombine_docs_combine_docs. unfold combine_docs.
  rewrite Happly.
  destruct (apply _ _ _) as [map_results|e]; [|reflexivity].
  rewrite !bind_Ok. cbv zeta.
  destruct (result_docs _ _ _) as [rdocs|e]; [|reflexivity].
  by rewrite !bind_Ok, Hreduce.
Qed.

(** ** Extra fields against the document body *)

(** C10: the extra fields are merged over the document body, so an
    extra field named like the document variable takes the place of the
    body in every record, in both [combine_docs] and [acombine_docs];
    every other extra field is in the record as well. These records are
    what the model-invocation object is called on: [combine_docs] is the
    call of [apply] on them followed by the rebuilding, the reduction and
    the surfacing of the raw outputs, [acombine_docs] likewise, a failure
    of that call is their failure, and two model-invocation objects that
    answer alike on these records give the same combination. *)
Theorem kwargs_override_document_variable
    (self : MapReduceDocumentsChain) (docs : list Document)
    (kwargs : gmap string value) (v : value) (i : nat) (d : Document) :
  kwargs !! document_variable_name self = Some v →
  docs !! i = Some d →
  (∃ rec,
     map_inputs self docs kwargs !! i = Some rec
     ∧ amap_inputs self docs kwargs !! i = Some rec
     ∧ rec !! document_variable_name self = Some v
     ∧ ∀ k w, kwargs !! k = Some w → rec !! k = Some w)
  ∧ (∀ (Callbacks : Type) apply apply' reduce token_max (callbacks : Callbacks),
       apply (llm_chain self) (map_inputs self docs kwargs) callbacks
         = apply' (llm_chain self) (map_inputs self docs kwargs) callbacks →
       combine_docs Callbacks apply reduce self docs token_max callbacks kwargs
         = combine_docs Callbacks apply' reduce self docs token_max callbacks kwargs)
  ∧ (∀ (Callbacks : Type) aapply aapply' areduce token_max (callbacks : Callbacks),
       aapply (llm_chain self) (amap_inputs self docs kwargs) callbacks
         = aapply' (llm_chain self) (amap_inputs self docs kwargs) callbacks →
       acombine_docs Callbacks aapply areduce self docs token_max callbacks kwargs
         = acombine_docs Callbacks aapply' areduce self docs token_max callbacks kwargs)
  ∧ (∀ (Callbacks : Type) apply reduce token_max (callbacks : Callbacks),
       combine_docs Callbacks apply reduce self docs token_max callbacks kwargs
         = (map_results ← apply (llm_chain self) (map_inputs self docs kwargs) callbacks;
            rdocs ← result_docs (output_key (llm_chain self)) docs map_results;
            reduced ← reduce (reduce_documents_chain self) rdocs token_max callbacks
                        kwargs;
            add_intermediate_steps self (output_key (llm_chain self)) map_results
              reduced)
       ∧ acombine_docs Callbacks apply reduce self docs token_max callbacks kwargs
         = (map_results ← apply (llm_chain self) (amap_inputs self docs kwargs) callbacks;
            rdocs ← result_docs (output_key (llm_chain self)) docs map_results;
            reduced ← reduce (reduce_documents_chain self) rdocs token_max callbacks
                        kwargs;
            add_intermediate_steps self (output_key (llm_chain self)) map_results
              reduced)
       ∧ ∀ e,
           apply (llm_chain self) (map_inputs self docs kwargs) callbacks = Raise e →
           combine_docs Callbacks apply reduce self docs token_max callbacks kwargs
             = Raise e
           ∧ acombine_docs Callbacks apply reduce self docs token_max callbacks kwargs
             = Raise e).
Proof.
  intros Hv Hd. split; [|split; [|split]].
  - exists (dict_update (<[document_variable_name self := VStr (page_content d)]> ∅) kwargs).
    assert (∀ k w, kwargs !! k = Some w →
              dict_update (<[document_variable_name self := VStr (page_content d)]> ∅)
                kwargs !! k = Some w) as Hkw.
    { intros k w Hk. unfold dict_update. by apply lookup_union_Some_l. }
    split; [|split; [|split]].
    + unfold map_inputs. by rewrite list_lookup_fmap, Hd.
    + rewrite amap_inputs_map_inputs. unfold map_inputs.
      by rewrite list_lookup_fmap, Hd.
    + by apply Hkw.
    + exact Hkw.
  - intros Callbacks apply apply' reduce token_max callbacks Hsame.
    unfold combine_docs. by rewrite Hsame.
  - intros Callbacks aapply aapply' areduce token_max callbacks Hsame.
    unfold acombine_docs. by rewrite Hsame.
  - intros Callbacks apply reduce token_max callbacks.
    split; [reflexivity|]. split; [reflexivity|].
    intros e He. rewrite acombine_docs_combine_docs.
    unfold combine_docs. by rewrite He.
Qed.

(** ** The pre root validators, one by one *)

Lemma contains_cases (d : gmap string value) k :
  (∃ v, d !! k = Some v ∧ contains d k = true) ∨ (d !! k = None ∧ contains d k = false).
Proof.
  destruct (d !! k) as [v|] eqn:Hk.
  - left. exists v. split; [done|]. by eapply contains_true.
  - right. split; [done|]. by apply contains_false.
Qed.

Lemma get_reduce_chain_absent (values : gmap string value) :
  values !! "combine_document_chain" = None → get_reduce_chain values = Ok values.
Proof.
  intros H. unfold get_reduce_chain. by rewrite (contains_false _ _ H).
Qed.

Lemma get_reduce_chain_both (values : gmap string value) :
  is_Some (values !! "combine_document_chain") →
  is_Some (values !! "reduce_documents_chain") →
  get_reduce_chain values = Raise (ValueError both_chains_message).
Proof.
  intros [c Hc] [r Hr]. unfold get_reduce_chain.
  by rewrite (contains_true _ _ _ Hc), (contains_true _ _ _ Hr).
Qed.

Lemma get_reduce_chain_legacy (values : gmap string value) cv :
  values !! "combine_document_chain" = Some cv →
  values !! "reduce_documents_chain" = None →
  get_reduce_chain values =
    (reduce_chain ← new_ReduceDocumentsChain cv (dict_get values "collapse_document_chain");
     Ok (migrated values reduce_chain)).
Proof.
  intros Hc Hr. unfold get_reduce_chain.
  rewrite (contains_true _ _ _ Hc), (contains_false _ _ Hr).
  rewrite (getitem_Some _ _ _ Hc), bind_Ok. cbv zeta.
  destruct (new_ReduceDocumentsChain _ _) as [reduce_chain|e]; [|reflexivity].
  rewrite !bind_Ok. unfold migrated.
  destruct (contains_cases
              (delete "combine_document_chain"
                 (<["reduce_documents_chain" := VChain reduce_chain]> values))
              "collapse_document_chain") as [(v & _ & ->)|[Hnone ->]].
  - reflexivity.
  - by rewrite (delete_id _ _ Hnone).
Qed.

Lemma migrated_lookup (values : gmap string value) reduce_chain key :
  migrated values reduce_chain !! key =
    if decide (key = "collapse_document_chain") then None
    else if decide (key = "combine_document_chain") then None
    else if decide (key = "reduce_documents_chain") then Some (VChain reduce_chain)
    else values !! key.
Proof.
  unfold migrated.
  destruct (decide (key = "collapse_document_chain")) as [->|H1].
  { apply lookup_delete_eq. }
  rewrite lookup_delete_ne by done.
  destruct (decide (key = "combine_document_chain")) as [->|H2].
  { apply lookup_delete_eq. }
  rewrite lookup_delete_ne by done.
  destruct (decide (key = "reduce_documents_chain")) as [->|H3].
  { apply lookup_insert_eq. }
  by rewrite lookup_insert_ne.
Qed.

(** The first validator either fails with an error pydantic turns into a
    validation error, or leaves every key but its three alone. *)
Lemma get_reduce_chain_cases (values : gmap string value) :
  (∃ e, get_reduce_chain values = Raise e
        ∧ root_validator_pre get_reduce_chain values
          = Raise (ValidationError "__root__" (Some e)))
  ∨ (∃ values', get_reduce_chain values = Ok values'
        ∧ ∀ key, key ≠ "collapse_document_chain" → key ≠ "combine_document_chain" →
                 key ≠ "reduce_documents_chain" → values' !! key = values !! key).
Proof.
  destruct (values !! "combine_document_chain") as [cv|] eqn:Hc.
  - destruct (values !! "reduce_documents_chain") as [rv|] eqn:Hr.
    + left. eexists. unfold root_validator_pre.
      rewrite get_reduce_chain_both by eauto. done.
    + unfold root_validator_pre. rewrite (get_reduce_chain_legacy _ _ Hc Hr).
      destruct (new_ReduceDocumentsChain _ _) as [reduce_chain|e] eqn:Hnew.
      * right. eexists. split; [reflexivity|].
        intros key H1 H2 H3. rewrite migrated_lookup.
        by rewrite !decide_False.
      * left. exists e. rewrite bind_Raise. split; [done|].
        unfold new_ReduceDocumentsChain in Hnew.
        repeat case_match; simplify_eq; done.
  - right. exists values. by rewrite get_reduce_chain_absent.
Qed.

(** The second validator never fails and only renames its key. *)
Lemma get_return_intermediate_steps_cases (values : gmap string value) :
  ∃ values', get_return_intermediate_steps values = Ok values'
    ∧ ∀ key, key ≠ "return_intermediate_steps" → key ≠ "return_map_steps" →
             values' !! key = values !! key.
Proof.
  unfold get_return_intermediate_steps.
  destruct (contains_cases values "return_map_steps") as [(v & Hv & ->)|[Hnone ->]].
  - rewrite (getitem_Some _ _ _ Hv), bind_Ok. cbv zeta.
    eexists. split; [reflexivity|].
    intros key H1 H2. by rewrite lookup_delete_ne, lookup_insert_ne.
  - by exists values.
Qed.

Lemma llm_chain_input_variables_eq (values : gmap string value) c :
  values !! "llm_chain" = Some (VLLMChain c) →
  llm_chain_input_variables values = Ok (input_variables (prompt c)).
Proof.
  intros H. unfold llm_chain_input_variables.
  by rewrite (getitem_Some _ _ _ H), bind_Ok.
Qed.




Lemma get_default_document_variable_name_known (values : gmap string value) c name :
  values !! "document_variable_name" = Some name →
  values !! "llm_chain" = Some (VLLMChain c) →
  value_in name (input_variables (prompt c)) = true →
  get_default_document_variable_name values = Ok values.
Proof.
  intros Hname Hllm Hin. unfold get_default_document_variable_name.
  rewrite (contains_true _ _ _ Hname). cbn [negb].
  rewrite (llm_chain_input_variables_eq _ _ Hllm), bind_Ok.
  rewrite (getitem_Some _ _ _ Hname), bind_Ok.
  by rewrite Hin.
Qed.

Lemma value_in_elem name (l : list string) s :
  value_in name l = true → name = VStr s → s ∈ l.
Proof. intros Hin ->. cbn in Hin. by apply bool_decide_eq_true in Hin. Qed.

(** What a successful third validator guarantees. *)
Lemma get_default_document_variable_name_Ok (values values' : gmap string value) :
  get_default_document_variable_name values = Ok values' →
  (∀ key, key ≠ "document_variable_name" → values' !! key = values !! key)
  ∧ ∃ c name,
      values !! "llm_chain" = Some (VLLMChain c)
      ∧ values' !! "document_variable_name" = Some (VStr name)
      ∧ name ∈ input_variables (prompt c).
Proof.
  unfold get_default_document_variable_name, llm_chain_input_variables, getitem.
  destruct (values !! "llm_chain") as [[| | | | | | |c|]|] eqn:Hllm;
    destruct (contains_cases values "document_variable_name")
      as [(name & Hname & ->)|[Hnone ->]]; cbn [negb]; rewrite ?bind_Ok, ?bind_Raise;
    try discriminate.
  - rewrite Hname, bind_Ok.
    destruct (value_in name _) eqn:Hin; cbn [negb]; [|discriminate].
    intros [= <-]. split; [done|].
    destruct name as [| | |s| | | | |]; try discriminate.
    exists c, s. split; [done|]. split; [done|]. by eapply value_in_elem.
  - destruct (input_variables (prompt c)) as [|v [|w vars]] eqn:Hvars;
      cbn; try discriminate.
    intros [= <-]. split.
    + intros key Hkey. by rewrite lookup_insert_ne.
    + exists c, v. split; [done|]. split; [apply lookup_insert_eq|].
      rewrite Hvars. apply list_elem_of_here.
Qed.

(** ** Construction *)

Lemma root_validator_pre_Ok validator (values values' : gmap string value) :
  validator values = Ok values' ↔ root_validator_pre validator values = Ok values'.
Proof.
  unfold root_validator_pre.
  destruct (validator values) as [v|[]]; split; intros H; try discriminate; done.
Qed.

Lemma root_validator_pre_ValueError validator (values : gmap string value) msg :
  validator values = Raise (ValueError msg) →
  root_validator_pre validator values
    = Raise (ValidationError "__root__" (Some (ValueError msg))).
Proof. intros H. unfold root_validator_pre. by rewrite H. Qed.

Section ConstructionFacts.

Variable validate_inherited : gmap string value -> result unit.

Abbreviation new_chain := (new_MapReduceDocumentsChain validate_inherited).

Lemma validate_fields_Ok (values : gmap string value) self :
  validate_fields validate_inherited values = Ok self →
  values !! "llm_chain" = Some (VLLMChain (llm_chain self))
  ∧ values !! "reduce_documents_chain" = Some (VChain (reduce_documents_chain self))
  ∧ values !! "document_variable_name" = Some (VStr (document_variable_name self)).
Proof.
  unfold validate_fields, field_llm_chain, field_reduce_documents_chain,
    field_document_variable_name.
  destruct (values !! "llm_chain") as [[]|]; try discriminate.
  rewrite bind_Ok.
  destruct (values !! "reduce_documents_chain") as [[]|]; try discriminate.
  rewrite bind_Ok.
  destruct (values !! "document_variable_name") as [[]|]; try discriminate.
  rewrite bind_Ok.
  destruct (field_return_intermediate_steps values); [|discriminate].
  rewrite bind_Ok.
  destruct (validate_inherited _); [|discriminate].
  rewrite bind_Ok. by intros [= <-].
Qed.

(** Construction is the three validators in order, then the fields. *)
Lemma new_chain_steps (values v1 v2 v3 : gmap string value) :
  get_reduce_chain values = Ok v1 →
  get_return_intermediate_steps v1 = Ok v2 →
  get_default_document_variable_name v2 = Ok v3 →
  new_chain values = validate_fields validate_inherited v3.
Proof.
  intros H1 H2 H3. unfold new_MapReduceDocumentsChain.
  apply root_validator_pre_Ok in H1, H2, H3.
  by rewrite H1, bind_Ok, H2, bind_Ok, H3, bind_Ok.
Qed.

Lemma new_chain_Ok_inv (values : gmap string value) self :
  new_chain values = Ok self →
  ∃ v1 v2 v3,
    get_reduce_chain values = Ok v1
    ∧ get_return_intermediate_steps v1 = Ok v2
    ∧ get_default_document_variable_name v2 = Ok v3
    ∧ validate_fields validate_inherited v3 = Ok self.
Proof.
  unfold new_MapReduceDocumentsChain. intros H.
  destruct (root_validator_pre get_reduce_chain values) as [v1|] eqn:H1;
    [|discriminate].
  rewrite bind_Ok in H.
  destruct (root_validator_pre get_return_intermediate_steps v1) as [v2|] eqn:H2;
    [|discriminate].
  rewrite bind_Ok in H.
  destruct (root_validator_pre get_default_document_variable_name v2) as [v3|] eqn:H3;
    [|discriminate].
  rewrite bind_Ok in H.
  apply root_validator_pre_Ok in H1, H2, H3.
  by exists v1, v2, v3.
Qed.

(** A failure of the first validator is the failure of the
    construction. *)
Lemma new_chain_first_fails (values : gmap string value) e :
  root_validator_pre get_reduce_chain values = Raise e → new_chain values = Raise e.
Proof. intros H. unfold new_MapReduceDocumentsChain. by rewrite H. Qed.

(** The first two validators leave the model-invocation object and
    the document-variable name alone. *)
Lemma first_two_validators_keep (values v1 v2 : gmap string value) key :
  get_reduce_chain values = Ok v1 →
  get_return_intermediate_steps v1 = Ok v2 →
  key = "llm_chain" ∨ key = "document_variable_name" →
  v2 !! key = values !! key.
Proof.
  intros H1 H2 Hkey.
  destruct (get_reduce_chain_cases values) as [(e & He & _)|(v1' & Hv1 & Hkeep1)];
    [congruence|].
  destruct (get_return_intermediate_steps_cases v1) as (v2' & Hv2 & Hkeep2).
  assert (v1' = v1) as -> by congruence.
  assert (v2' = v2) as -> by congruence.
  destruct Hkey as [->| ->]; by rewrite Hkeep2, Hkeep1.
Qed.



(** The field [reduce_documents_chain] of a constructed chain is what
    the first validator left under that key. *)
Lemma new_chain_reduce_chain (values v1 : gmap string value) self rc :
  get_reduce_chain values = Ok v1 →
  v1 !! "reduce_documents_chain" = Some (VChain rc) →
  new_chain values = Ok self →
  reduce_documents_chain self = rc.
Proof.
  intros H1 Hrc (v1' & v2 & v3 & H1' & H2 & H3 & Hf)%new_chain_Ok_inv.
  assert (v1' = v1) as -> by congruence.
  destruct (get_return_intermediate_steps_cases v1) as (v2' & Hv2 & Hkeep2).
  assert (v2' = v2) as -> by congruence.
  apply get_default_document_variable_name_Ok in H3 as (Hkeep3 & _).
  apply validate_fields_Ok in Hf as (_ & Hred & _).
  rewrite Hkeep3, Hkeep2, Hrc in Hred by done.
  by simplify_eq.
Qed.

End ConstructionFacts.

(** ** The legacy combine chain *)

(** C3: with both [combine_document_chain] and [reduce_documents_chain]
    supplied, the validator raises and the construction fails with a
    validation error. With the legacy field alone, holding a combine
    chain [c] (and the legacy collapse field absent, [None], or a chain),
    the validator succeeds: [reduce_documents_chain] holds a
    [ReduceDocumentsChain] of [c] and the optional collapse chain, both
    legacy keys are gone, every other key is as it was, the construction
    goes on exactly as from that migrated configuration, and a chain it
    yields has this reduce chain. *)
Theorem legacy_combine_chain_migrated
    (validate_inherited : gmap string value -> result unit)
    (values : gmap string value) :
  (is_Some (values !! "combine_document_chain") →
   is_Some (values !! "reduce_documents_chain") →
   get_reduce_chain values = Raise (ValueError both_chains_message)
   ∧ new_MapReduceDocumentsChain validate_inherited values
     = Raise (ValidationError "__root__" (Some (ValueError both_chains_message))))
  ∧
  (∀ c k,
     values !! "combine_document_chain" = Some (VChain c) →
     values !! "reduce_documents_chain" = None →
     dict_get values "collapse_document_chain"
       = match k with Some collapse => VChain collapse | None => VNone end →
     get_reduce_chain values = Ok (migrated values (ReduceDocumentsChain c k))
     ∧ migrated values (ReduceDocumentsChain c k) !! "reduce_documents_chain"
       = Some (VChain (ReduceDocumentsChain c k))
     ∧ migrated values (ReduceDocumentsChain c k) !! "combine_document_chain" = None
     ∧ migrated values (ReduceDocumentsChain c k) !! "collapse_document_chain" = None
     ∧ (∀ key, key ≠ "collapse_document_chain" → key ≠ "combine_document_chain" →
               key ≠ "reduce_documents_chain" →
               migrated values (ReduceDocumentsChain c k) !! key = values !! key)
     ∧ new_MapReduceDocumentsChain validate_inherited values
       = new_MapReduceDocumentsChain validate_inherited
           (migrated values (ReduceDocumentsChain c k))
     ∧ ∀ self, new_MapReduceDocumentsChain validate_inherited values = Ok self →
               reduce_documents_chain self = ReduceDocumentsChain c k).
Proof.
  split.
  - intros Hc Hr.
    pose proof (get_reduce_chain_both values Hc Hr) as Hboth.
    split; [done|].
    apply new_chain_first_fails. by apply root_validator_pre_ValueError.
  - intros c k Hc Hr Hk.
    assert (get_reduce_chain values = Ok (migrated values (ReduceDocumentsChain c k)))
      as Hmig.
    { rewrite (get_reduce_chain_legacy _ _ Hc Hr), Hk.
      by destruct k. }
    assert (get_reduce_chain (migrated values (ReduceDocumentsChain c k))
            = Ok (migrated values (ReduceDocumentsChain c k))) as Hfix.
    { apply get_reduce_chain_absent. by rewrite migrated_lookup. }
    split; [done|].
    split; [by rewrite migrated_lookup|].
    split; [by rewrite migrated_lookup|].
    split; [by rewrite migrated_lookup|].
    split.
    { intros key H1 H2 H3. rewrite migrated_lookup. by rewrite !decide_False. }
    split.
    { unfold new_MapReduceDocumentsChain.
      apply root_validator_pre_Ok in Hmig, Hfix. by rewrite Hmig, Hfix. }
    intros self Hself.
    eapply new_chain_reduce_chain; [exact Hmig| |exact Hself].
    by rewrite migrated_lookup.
Qed.

(** ** The document-variable name *)


(** ** The backward-compatibility properties *)

(** C7: neither property changes the chain it is read from; when the
    reduce chain is not a [ReduceDocumentsChain], both raise the error
    that reports the type of the reduce chain. *)
Theorem compatibility_properties_read_only (self : MapReduceDocumentsChain) :
  (collapse_document_chain self).2 = self
  ∧ (combine_document_chain self).2 = self
  ∧ (is_ReduceDocumentsChain (reduce_documents_chain self) = false →
     (collapse_document_chain self).1
       = Raise (ValueError (no_attribute_message (reduce_documents_chain self)))
     ∧ (combine_document_chain self).1
       = Raise (ValueError (no_attribute_message (reduce_documents_chain self)))
     ∧ Fmt (class_of (reduce_documents_chain self))
         ∈ no_attribute_message (reduce_documents_chain self)).
Proof.
  unfold collapse_document_chain, combine_document_chain.
  destruct (reduce_documents_chain self) as [combine [collapse|]|cls]; cbn;
    (split; [done|]); (split; [done|]); intros H; try discriminate.
  split; [done|]. split; [done|].
  unfold no_attribute_message. set_solver.
Qed.

(** C9: on a [ReduceDocumentsChain] without a collapse sub-chain the
    property [collapse_document_chain] does not fail: it answers with
    the combine sub-chain. *)
Theorem collapse_document_chain_falls_back
    (self : MapReduceDocumentsChain) (combine : BaseCombineDocumentsChain) :
  reduce_documents_chain self = ReduceDocumentsChain combine None →
  collapse_document_chain self = (Ok combine, self)
  ∧ combine_document_chain self = (Ok combine, self).
Proof.
  intros H. unfold collapse_document_chain, combine_document_chain. by rewrite H.
Qed.

(** ** The composed map-reduce runnable *)

(** C2: the composition stores the map chain's output under "context";
    with a collapse chain, that chain then runs on the updated record and
    its output replaces "context"; the reduce chain receives the whole
    record and its result is the result of the composition. Without a
    collapse chain the composition is map, then reduce. *)
Theorem create_map_reduce_documents_chain_order
    (m r c : Runnable (gmap string value) value) (input : gmap string value) :
  create_map_reduce_documents_chain m r (Some c) input =
    (docs ← m input;
     collapsed ← c (<["context" := docs]> input);
     r (<["context" := collapsed]> input))
  ∧ create_map_reduce_documents_chain m r None input =
    (docs ← m input; r (<["context" := docs]> input)).
Proof.
  split.
  - unfold create_map_reduce_documents_chain, with_name.
    rewrite !pipe_eq, assign_eq.
    destruct (m input) as [docs|e]; [|reflexivity].
    rewrite !bind_Ok, assign_eq.
    destruct (c _) as [collapsed|e]; [|reflexivity].
    rewrite !bind_Ok. by rewrite insert_insert_eq.
  - unfold create_map_reduce_documents_chain, with_name.
    rewrite pipe_eq, assign_eq.
    by destruct (m input).
Qed.

(** C8: a collapse chain that returns the "context" field of its input
    unchanged makes no difference to the result of the composition. *)
Theorem create_map_reduce_documents_chain_identity_collapse
    (m r c : Runnable (gmap string value) value) (input : gmap string value)
    (Hid : ∀ rec v, rec !! "context" = Some v → c rec = Ok v) :
  create_map_reduce_documents_chain m r None input =
  create_map_reduce_documents_chain m r (Some c) input.
Proof.
  unfold create_map_reduce_documents_chain, with_name.
  rewrite !pipe_eq, assign_eq.
  destruct (m input) as [docs|e]; [|reflexivity].
  rewrite !bind_Ok, assign_eq.
  rewrite (Hid _ docs) by apply lookup_insert_eq.
  rewrite !bind_Ok. by rewrite insert_insert_eq.
Qed.

Set Warnings "-clear-no-such-hyp".

(** ** The legacy flag *)

Lemma get_return_intermediate_steps_present (values : gmap string value) v :
  values !! "return_map_steps" = Some v →
  get_return_intermediate_steps values
    = Ok (delete "return_map_steps" (<["return_intermediate_steps" := v]> values)).
Proof.
  intros Hv. unfold get_return_intermediate_steps.
  by rewrite (contains_true _ _ _ Hv), (getitem_Some _ _ _ Hv), bind_Ok.
Qed.

Lemma get_return_intermediate_steps_absent (values : gmap string value) :
  values !! "return_map_steps" = None → get_return_intermediate_steps values = Ok values.
Proof.
  intros Hnone. unfold get_return_intermediate_steps.
  by rewrite (contains_false _ _ Hnone).
Qed.

(** X1: the second validator never fails. A "return_map_steps" entry is
    moved to "return_intermediate_steps", replacing whatever the caller
    put there, and every other key is kept; without that entry the
    configuration is returned as it is. *)
Theorem return_map_steps_renamed_over (values : gmap string value) :
  (∀ v, values !! "return_map_steps" = Some v →
     ∃ values', get_return_intermediate_steps values = Ok values'
       ∧ values' !! "return_intermediate_steps" = Some v
       ∧ values' !! "return_map_steps" = None
       ∧ ∀ key, key ≠ "return_intermediate_steps" → key ≠ "return_map_steps" →
                values' !! key = values !! key)
  ∧ (values !! "return_map_steps" = None →
     get_return_intermediate_steps values = Ok values).
Proof.
  split.
  - intros v Hv. eexists.
    split; [by apply get_return_intermediate_steps_present|].
    split; [by rewrite lookup_delete_ne, lookup_insert_eq|].
    split; [apply lookup_delete_eq|].
    intros key H1 H2. by rewrite lookup_delete_ne, lookup_insert_ne.
  - apply get_return_intermediate_steps_absent.
Qed.

(** ** Normal forms of the validators *)

Lemma get_reduce_chain_Ok_no_legacy (values values' : gmap string value) :
  get_reduce_chain values = Ok values' → values' !! "combine_document_chain" = None.
Proof.
  intros Hok.
  destruct (values !! "combine_document_chain") as [cv|] eqn:Hc.
  - destruct (values !! "reduce_documents_chain") as [rv|] eqn:Hr.
    + rewrite get_reduce_chain_both in Hok by eauto. discriminate.
    + rewrite (get_reduce_chain_legacy _ _ Hc Hr) in Hok.
      destruct (new_ReduceDocumentsChain _ _) as [rc|e]; [|discriminate].
      rewrite bind_Ok in Hok. injection Hok as <-. by rewrite migrated_lookup.
  - rewrite (get_reduce_chain_absent _ Hc) in Hok. by injection Hok as <-.
Qed.

Lemma get_return_intermediate_steps_Ok_no_legacy (values values' : gmap string value) :
  get_return_intermediate_steps values = Ok values' →
  values' !! "return_map_steps" = None.
Proof.
  unfold get_return_intermediate_steps.
  destruct (contains_cases values "return_map_steps") as [(v & Hv & ->)|[Hnone ->]].
  - rewrite (getitem_Some _ _ _ Hv), bind_Ok. cbv zeta.
    intros [= <-]. apply lookup_delete_eq.
  - by intros [= <-].
Qed.

(** X2: each of the three validators leaves its own output alone: a
    configuration one of them has accepted is accepted again and comes
    back unchanged. *)
Theorem validators_idempotent (values values' : gmap string value) :
  (get_reduce_chain values = Ok values' → get_reduce_chain values' = Ok values')
  ∧ (get_return_intermediate_steps values = Ok values' →
     get_return_intermediate_steps values' = Ok values')
  ∧ (get_default_document_variable_name values = Ok values' →
     get_default_document_variable_name values' = Ok values').
Proof.
  split; [|split].
  - intros Hok. apply get_reduce_chain_absent.
    by eapply get_reduce_chain_Ok_no_legacy.
  - intros Hok%get_return_intermediate_steps_Ok_no_legacy.
    unfold get_return_intermediate_steps. by rewrite (contains_false _ _ Hok).
  - intros (Hkeep & c & name & Hllm & Hname & Hin)%get_default_document_variable_name_Ok.
    eapply get_default_document_variable_name_known; [exact Hname| |].
    + rewrite Hkeep by done. exact Hllm.
    + cbn. by apply bool_decide_eq_true_2.
Qed.

(** ** A configuration without a model-invocation object *)

Lemma get_default_document_variable_name_no_llm_chain (values : gmap string value) :
  values !! "llm_chain" = None →
  get_default_document_variable_name values = Raise (KeyError "llm_chain").
Proof.
  intros Hllm. unfold get_default_document_variable_name, llm_chain_input_variables.
  rewrite (getitem_None _ _ Hllm).
  by destruct (negb _).
Qed.

(** X3: without "llm_chain" the third validator fails on the lookup
    itself, whether or not a document-variable name was given; when no
    legacy combine chain is configured the construction ends with that
    [KeyError], which is not a validation error. *)
Theorem missing_llm_chain_is_a_key_error
    (validate_inherited : gmap string value -> result unit)
    (values : gmap string value) :
  values !! "llm_chain" = None →
  get_default_document_variable_name values = Raise (KeyError "llm_chain")
  ∧ (values !! "combine_document_chain" = None →
     new_MapReduceDocumentsChain validate_inherited values = Raise (KeyError "llm_chain")).
Proof.
  intros Hllm. split; [by apply get_default_document_variable_name_no_llm_chain|].
  intros Hc. unfold new_MapReduceDocumentsChain.
  rewrite (proj1 (root_validator_pre_Ok _ _ _) (get_reduce_chain_absent _ Hc)), bind_Ok.
  destruct (get_return_intermediate_steps_cases values) as (v2 & Hv2 & Hkeep).
  rewrite (proj1 (root_validator_pre_Ok _ _ _) Hv2), bind_Ok.
  unfold root_validator_pre at 1.
  rewrite get_default_document_variable_name_no_llm_chain; [done|].
  by rewrite Hkeep.
Qed.

(** ** From the configuration to the fields of the chain *)

Lemma get_default_document_variable_name_supplied (values values' : gmap string value) name :
  values !! "document_variable_name" = Some name →
  get_default_document_variable_name values = Ok values' → values' = values.
Proof.
  intros Hname. unfold get_default_document_variable_name.
  rewrite (contains_true _ _ _ Hname). cbn [negb].
  destruct (llm_chain_input_variables values) as [vars|e]; [|discriminate].
  rewrite bind_Ok, (getitem_Some _ _ _ Hname), bind_Ok.
  destruct (negb _); [discriminate|]. by intros [= <-].
Qed.

Lemma validate_fields_steps validate_inherited (values : gmap string value) self :
  validate_fields validate_inherited values = Ok self →
  field_return_intermediate_steps values = Ok (return_intermediate_steps self).
Proof.
  unfold validate_fields.
  destruct (field_llm_chain values); [|discriminate].
  rewrite bind_Ok.
  destruct (field_reduce_documents_chain values); [|discriminate].
  rewrite bind_Ok.
  destruct (field_document_variable_name values); [|discriminate].
  rewrite bind_Ok.
  destruct (field_return_intermediate_steps values); [|discriminate].
  rewrite bind_Ok.
  destruct (validate_inherited _); [|discriminate].
  rewrite bind_Ok. by intros [= <-].
Qed.

(** X4: what a successful construction was given is what the chain
    holds: the model-invocation object of the configuration, the reduce
    chain when one was supplied, and the document-variable name when one
    was supplied. *)
Theorem constructed_fields_are_the_supplied_ones
    (validate_inherited : gmap string value -> result unit)
    (values : gmap string value) (self : MapReduceDocumentsChain) :
  new_MapReduceDocumentsChain validate_inherited values = Ok self →
  values !! "llm_chain" = Some (VLLMChain (llm_chain self))
  ∧ (∀ r, values !! "reduce_documents_chain" = Some r →
          r = VChain (reduce_documents_chain self))
  ∧ (∀ name, values !! "document_variable_name" = Some name →
             name = VStr (document_variable_name self)).
Proof.
  intros (v1 & v2 & v3 & H1 & H2 & H3 & Hf)%new_chain_Ok_inv.
  pose proof (first_two_validators_keep _ _ _ "llm_chain" H1 H2 (or_introl eq_refl))
    as Hllm2.
  pose proof (first_two_validators_keep _ _ _ "document_variable_name" H1 H2
                (or_intror eq_refl)) as Hname2.
  pose proof (get_default_document_variable_name_Ok _ _ H3) as (Hkeep3 & _).
  pose proof (validate_fields_Ok _ _ _ Hf) as (Hllm3 & Hred3 & Hname3).
  split; [|split].
  - rewrite <- Hllm2, <- (Hkeep3 "llm_chain") by done. exact Hllm3.
  - intros r Hr.
    destruct (values !! "combine_document_chain") as [cv|] eqn:Hc.
    { rewrite get_reduce_chain_both in H1 by eauto. discriminate. }
    rewrite (get_reduce_chain_absent _ Hc) in H1. injection H1 as <-.
    destruct (get_return_intermediate_steps_cases values) as (v2' & Hv2 & Hkeep2).
    assert (v2' = v2) as -> by congruence.
    rewrite Hkeep3, Hkeep2, Hr in Hred3 by done. by injection Hred3.
  - intros name Hname. rewrite Hname in Hname2.
    rewrite (get_default_document_variable_name_supplied _ _ _ Hname2 H3) in Hname3.
    rewrite Hname2 in Hname3. by injection Hname3.
Qed.

(** X5: a boolean passed as the legacy "return_map_steps" is the flag
    of the constructed chain, whatever was passed under
    "return_intermediate_steps"; a boolean passed under the canonical
    key alone is the flag; with neither key the flag is off. *)
Theorem constructed_flag
    (validate_inherited : gmap string value -> result unit)
    (values : gmap string value) (self : MapReduceDocumentsChain) :
  new_MapReduceDocumentsChain validate_inherited values = Ok self →
  (∀ b, values !! "return_map_steps" = Some (VBool b) →
        return_intermediate_steps self = b)
  ∧ (∀ b, values !! "return_map_steps" = None →
          values !! "return_intermediate_steps" = Some (VBool b) →
          return_intermediate_steps self = b)
  ∧ (values !! "return_map_steps" = None →
     values !! "return_intermediate_steps" = None →
     return_intermediate_steps self = false).
Proof.
  intros (v1 & v2 & v3 & H1 & H2 & H3 & Hf)%new_chain_Ok_inv.
  destruct (get_reduce_chain_cases values) as [(e & He & _)|(v1' & Hv1 & Hkeep1)];
    [congruence|].
  assert (v1' = v1) as -> by congruence.
  pose proof (get_default_document_variable_name_Ok _ _ H3) as (Hkeep3 & _).
  pose proof (validate_fields_steps _ _ _ Hf) as Hsteps.
  unfold field_return_intermediate_steps in Hsteps.
  rewrite Hkeep3 in Hsteps by done.
  split; [|split].
  - intros b Hb. rewrite <- Hkeep1 in Hb by done.
    rewrite (get_return_intermediate_steps_present _ _ Hb) in H2. injection H2 as <-.
    rewrite lookup_delete_ne, lookup_insert_eq in Hsteps by done.
    by injection Hsteps.
  - intros b Hnone Hb. rewrite <- Hkeep1 in Hnone, Hb by done.
    rewrite (get_return_intermediate_steps_absent _ Hnone) in H2. injection H2 as <-.
    rewrite Hb in Hsteps. by injection Hsteps.
  - intros Hnone Hnone'. rewrite <- Hkeep1 in Hnone, Hnone' by done.
    rewrite (get_return_intermediate_steps_absent _ Hnone) in H2. injection H2 as <-.
    rewrite Hnone' in Hsteps. by injection Hsteps.
Qed.

(** ** Legacy fields in, compatibility properties out *)

(** X6: a chain constructed from the legacy fields answers the
    compatibility properties with those fields: [combine_document_chain]
    is the legacy combine chain, and [collapse_document_chain] is the
    legacy collapse chain, or the combine chain when none was given. *)
Theorem legacy_fields_round_trip
    (validate_inherited : gmap string value -> result unit)
    (values : gmap string value) (self : MapReduceDocumentsChain)
    (c : BaseCombineDocumentsChain) (k : option BaseCombineDocumentsChain) :
  values !! "combine_document_chain" = Some (VChain c) →
  dict_get values "collapse_document_chain"
    = match k with Some collapse => VChain collapse | None => VNone end →
  new_MapReduceDocumentsChain validate_inherited values = Ok self →
  combine_document_chain self = (Ok c, self)
  ∧ collapse_document_chain self = (Ok (default c k), self).
Proof.
  intros Hc Hk Hself.
  pose proof (new_chain_Ok_inv _ _ _ Hself) as (v1 & _ & _ & H1 & _).
  destruct (values !! "reduce_documents_chain") as [rv|] eqn:Hr.
  { rewrite get_reduce_chain_both in H1 by eauto. discriminate. }
  rewrite (get_reduce_chain_legacy _ _ Hc Hr), Hk in H1.
  assert (get_reduce_chain values = Ok (migrated values (ReduceDocumentsChain c k)))
    as Hmig.
  { rewrite (get_reduce_chain_legacy _ _ Hc Hr), Hk. by destruct k. }
  assert (reduce_documents_chain self = ReduceDocumentsChain c k) as Hred.
  { eapply new_chain_reduce_chain; [exact Hmig| |exact Hself].
    by rewrite migrated_lookup. }
  unfold combine_document_chain, collapse_document_chain. rewrite Hred.
  by destruct k.
Qed.

(** ** Map results that do not line up *)

Lemma mapM_first_failure {A B} (f : A -> result B) l1 k1 x l2 e :
  Forall2 (fun a b => f a = Ok b) l1 k1 → f x = Raise e →
  mapM f (l1 ++ x :: l2) = Raise e.
Proof.
  intros Hall Hx. induction Hall as [|a b l1 k1 Hab _ IH].
  - cbn [app]. by rewrite mapM_cons, Hx.
  - cbn [app]. by rewrite mapM_cons, Hab, bind_Ok, IH.
Qed.

(** Fewer results than documents: the documents without a result are
    left out. *)
Lemma result_docs_from_le key (pre docs : list Document)
    (map_results : list (gmap string value)) (bodies : list string) :
  (length map_results ≤ length docs)%nat →
  Forall2 (fun r s => r !! key = Some (VStr s)) map_results bodies →
  mapM (fun ir : nat * gmap string value =>
          pc ← getitem ir.2 key;
          d ← list_getitem (pre ++ docs) ir.1;
          new_Document pc (metadata d))
       (enumerate_from (length pre) map_results)
  = Ok (zip_with mkDocument bodies (metadata <$> docs)).
Proof.
  intros Hlen Hall. revert pre docs Hlen.
  induction Hall as [|r s rs ss Hr _ IH]; intros pre docs Hlen.
  - reflexivity.
  - destruct docs as [|d docs]; [cbn in Hlen; lia|].
    rewrite enumerate_from_cons, mapM_cons. cbv beta. cbn [fst snd].
    rewrite (getitem_Some _ _ _ Hr), bind_Ok.
    rewrite (list_getitem_Some (pre ++ d :: docs)%list (length pre) d)
      by (by apply list_lookup_middle).
    rewrite bind_Ok. cbn [new_Document]. rewrite bind_Ok.
    specialize (IH (pre ++ [d])%list docs).
    rewrite length_app, <- (assoc_L (++)) in IH. cbn [length app] in IH.
    rewrite Nat.add_1_r in IH.
    rewrite IH by (cbn in Hlen; lia). reflexivity.
Qed.

(** More results than documents: the first result past the documents
    stops the rebuilding. *)
Lemma result_docs_from_gt key (pre docs : list Document)
    (map_results : list (gmap string value)) (bodies : list string) :
  (length docs < length map_results)%nat →
  Forall2 (fun r s => r !! key = Some (VStr s)) map_results bodies →
  mapM (fun ir : nat * gmap string value =>
          pc ← getitem ir.2 key;
          d ← list_getitem (pre ++ docs) ir.1;
          new_Document pc (metadata d))
       (enumerate_from (length pre) map_results)
  = Raise IndexError.
Proof.
  intros Hlen Hall. revert pre docs Hlen.
  induction Hall as [|r s rs ss Hr _ IH]; intros pre docs Hlen.
  - cbn in Hlen. lia.
  - rewrite enumerate_from_cons, mapM_cons. cbv beta. cbn [fst snd].
    rewrite (getitem_Some _ _ _ Hr), bind_Ok.
    destruct docs as [|d docs].
    + unfold list_getitem.
      rewrite (lookup_ge_None_2 (pre ++ [])%list (length pre))
        by (rewrite length_app; cbn; lia).
      reflexivity.
    + rewrite (list_getitem_Some (pre ++ d :: docs)%list (length pre) d)
        by (by apply list_lookup_middle).
      rewrite bind_Ok. cbn [new_Document]. rewrite bind_Ok.
      specialize (IH (pre ++ [d])%list docs).
      rewrite length_app, <- (assoc_L (++)) in IH. cbn [length app] in IH.
      rewrite Nat.add_1_r in IH.
      rewrite IH by (cbn in Hlen; lia). reflexivity.
Qed.

(** A result without the result key stops the rebuilding at that
    result. *)
Lemma result_docs_from_missing key (pre docs : list Document)
    (good : list (gmap string value)) (bodies : list string)
    (r : gmap string value) (rest : list (gmap string value)) :
  (length good ≤ length docs)%nat →
  Forall2 (fun r s => r !! key = Some (VStr s)) good bodies →
  r !! key = None →
  mapM (fun ir : nat * gmap string value =>
          pc ← getitem ir.2 key;
          d ← list_getitem (pre ++ docs) ir.1;
          new_Document pc (metadata d))
       (enumerate_from (length pre) (good ++ r :: rest))
  = Raise (KeyError key).
Proof.
  intros Hlen Hall Hr. revert pre docs Hlen.
  induction Hall as [|g s gs ss Hg _ IH]; intros pre docs Hlen.
  - cbn [app]. rewrite enumerate_from_cons, mapM_cons. cbv beta. cbn [fst snd].
    by rewrite (getitem_None _ _ Hr).
  - destruct docs as [|d docs]; [cbn in Hlen; lia|].
    cbn [app]. rewrite enumerate_from_cons, mapM_cons. cbv beta. cbn [fst snd].
    rewrite (getitem_Some _ _ _ Hg), bind_Ok.
    rewrite (list_getitem_Some (pre ++ d :: docs)%list (length pre) d)
      by (by apply list_lookup_middle).
    rewrite bind_Ok. cbn [new_Document]. rewrite bind_Ok.
    specialize (IH (pre ++ [d])%list docs).
    rewrite length_app, <- (assoc_L (++)) in IH. cbn [length app] in IH.
    rewrite Nat.add_1_r in IH.
    rewrite IH by (cbn in Hlen; lia). reflexivity.
Qed.

(** X7: the rebuilt documents follow the map results, not the input
    documents. With fewer results than documents, each carrying a string
    under the result key, the documents past the last result are dropped
    without an error, and [combine_docs] reduces the shorter list; with
    more results than documents the rebuilding raises [IndexError] and so
    does [combine_docs], whatever the reduce chain is. *)
Theorem result_docs_follow_map_results
    (Callbacks : Type) apply reduce self (docs : list Document) token_max
    (callbacks : Callbacks) (kwargs : gmap string value)
    (map_results : list (gmap string value)) (bodies : list string) :
  apply (llm_chain self) (map_inputs self docs kwargs) callbacks = Ok map_results →
  Forall2 (fun r s => r !! output_key (llm_chain self) = Some (VStr s))
          map_results bodies →
  ((length map_results ≤ length docs)%nat →
     result_docs (output_key (llm_chain self)) docs map_results
       = Ok (zip_with mkDocument bodies (metadata <$> docs))
     ∧ length (zip_with mkDocument bodies (metadata <$> docs)) = length map_results
     ∧ combine_docs Callbacks apply reduce self docs token_max callbacks kwargs =
         (reduce (reduce_documents_chain self)
                 (zip_with mkDocument bodies (metadata <$> docs))
                 token_max callbacks kwargs
          ≫= add_intermediate_steps self (output_key (llm_chain self)) map_results))
  ∧ ((length docs < length map_results)%nat →
     result_docs (output_key (llm_chain self)) docs map_results = Raise IndexError
     ∧ combine_docs Callbacks apply reduce self docs token_max callbacks kwargs
       = Raise IndexError).
Proof.
  intros Happly Hall.
  pose proof (Forall2_length _ _ _ Hall) as Hlen2.
  split.
  - intros Hlen.
    assert (result_docs (output_key (llm_chain self)) docs map_results
            = Ok (zip_with mkDocument bodies (metadata <$> docs))) as Hdocs.
    { exact (result_docs_from_le _ [] docs map_results bodies Hlen Hall). }
    split; [done|]. split.
    + rewrite length_zip_with, length_fmap. lia.
    + unfold combine_docs. rewrite Happly, bind_Ok. cbv zeta.
      by rewrite Hdocs, bind_Ok.
  - intros Hlen.
    assert (result_docs (output_key (llm_chain self)) docs map_results
            = Raise IndexError) as Hdocs.
    { exact (result_docs_from_gt _ [] docs map_results bodies Hlen Hall). }
    split; [done|].
    unfold combine_docs. rewrite Happly, bind_Ok. cbv zeta.
    by rewrite Hdocs.
Qed.

(** X8: nothing checks that a map result holds the result key. The
    first result without it, after results that carry strings and have
    documents, makes [combine_docs] and [acombine_docs] raise [KeyError]
    for that key, before the reduce chain is asked anything. *)
Theorem missing_result_key_is_a_key_error
    (Callbacks : Type) apply reduce self (docs : list Document) token_max
    (callbacks : Callbacks) (kwargs : gmap string value)
    (good : list (gmap string value)) (bodies : list string)
    (r : gmap string value) (rest : list (gmap string value)) :
  (length good ≤ length docs)%nat →
  Forall2 (fun r s => r !! output_key (llm_chain self) = Some (VStr s)) good bodies →
  r !! output_key (llm_chain self) = None →
  (apply (llm_chain self) (map_inputs self docs kwargs) callbacks
     = Ok (good ++ r :: rest)%list →
   combine_docs Callbacks apply reduce self docs token_max callbacks kwargs
     = Raise (KeyError (output_key (llm_chain self))))
  ∧ (apply (llm_chain self) (amap_inputs self docs kwargs) callbacks
       = Ok (good ++ r :: rest)%list →
     acombine_docs Callbacks apply reduce self docs token_max callbacks kwargs
       = Raise (KeyError (output_key (llm_chain self)))).
Proof.
  intros Hlen Hall Hr.
  assert (result_docs (output_key (llm_chain self)) docs (good ++ r :: rest)%list
          = Raise (KeyError (output_key (llm_chain self)))) as Hdocs.
  { exact (result_docs_from_missing _ [] docs good bodies r rest Hlen Hall Hr). }
  split; intros Happly.
  - unfold combine_docs. rewrite Happly, bind_Ok. cbv zeta. by rewrite Hdocs.
  - unfold acombine_docs. rewrite Happly, bind_Ok. cbv zeta. by rewrite Hdocs.
Qed.

(** ** Failures of the collaborators *)

(** X9: nothing is caught. An exception of the model-invocation object
    is the exception of [combine_docs], whatever the reduce chain is, and
    an exception of the reduce chain on the rebuilt documents is the
    exception of [combine_docs]; the same holds for [acombine_docs]. *)
Theorem collaborator_failures_propagate
    (Callbacks : Type) apply reduce self (docs : list Document) token_max
    (callbacks : Callbacks) (kwargs : gmap string value) (e : exn) :
  (apply (llm_chain self) (map_inputs self docs kwargs) callbacks = Raise e →
   combine_docs Callbacks apply reduce self docs token_max callbacks kwargs = Raise e
   ∧ acombine_docs Callbacks apply reduce self docs token_max callbacks kwargs = Raise e)
  ∧ (∀ map_results rdocs,
       apply (llm_chain self) (map_inputs self docs kwargs) callbacks = Ok map_results →
       result_docs (output_key (llm_chain self)) docs map_results = Ok rdocs →
       reduce (reduce_documents_chain self) rdocs token_max callbacks kwargs = Raise e →
       combine_docs Callbacks apply reduce self docs token_max callbacks kwargs = Raise e
       ∧ acombine_docs Callbacks apply reduce self docs token_max callbacks kwargs
         = Raise e).
Proof.
  split.
  - intros Happly. rewrite acombine_docs_combine_docs.
    unfold combine_docs. by rewrite Happly.
  - intros map_results rdocs Happly Hdocs Hreduce.
    rewrite acombine_docs_combine_docs.
    unfold combine_docs. rewrite Happly, bind_Ok. cbv zeta.
    by rewrite Hdocs, bind_Ok, Hreduce.
Qed.

(** ** What the model-invocation object is sent *)

(** X10: without an extra field named like the document variable, the
    i-th record sent to the model-invocation object holds the body of the
    i-th document under that name and, under every other key, exactly
    what the caller passed; there is one record per document. *)
Theorem map_inputs_carry_the_body
    (self : MapReduceDocumentsChain) (docs : list Document)
    (kwargs : gmap string value) (i : nat) (d : Document) :
  kwargs !! document_variable_name self = None →
  docs !! i = Some d →
  length (map_inputs self docs kwargs) = length docs
  ∧ ∃ rec,
      map_inputs self docs kwargs !! i = Some rec
      ∧ amap_inputs self docs kwargs !! i = Some rec
      ∧ rec !! document_variable_name self = Some (VStr (page_content d))
      ∧ ∀ k, k ≠ document_variable_name self → rec !! k = kwargs !! k.
Proof.
  intros Hnone Hd. split.
  { unfold map_inputs. apply length_fmap. }
  exists (dict_update (<[document_variable_name self := VStr (page_content d)]> ∅) kwargs).
  split; [|split; [|split]].
  - unfold map_inputs. by rewrite list_lookup_fmap, Hd.
  - rewrite amap_inputs_map_inputs. unfold map_inputs.
    by rewrite list_lookup_fmap, Hd.
  - unfold dict_update. rewrite lookup_union_r by done. apply lookup_insert_eq.
  - intros k Hk. unfold dict_update. rewrite lookup_union.
    rewrite lookup_insert_ne, lookup_empty by done.
    by destruct (kwargs !! k).
Qed.

(** X11: the metadata of the documents never reaches the
    model-invocation object: two document lists with the same bodies give
    the same input records, in both variants, so the model is asked the
    same. *)
Theorem map_inputs_ignore_metadata
    (self : MapReduceDocumentsChain) (docs docs' : list Document)
    (kwargs : gmap string value) :
  page_content <$> docs = page_content <$> docs' →
  map_inputs self docs kwargs = map_inputs self docs' kwargs
  ∧ amap_inputs self docs kwargs = amap_inputs self docs' kwargs
  ∧ ∀ (Callbacks : Type)
      (apply : LLMChain -> list (gmap string value) -> Callbacks ->
               result (list (gmap string value))) (callbacks : Callbacks),
      apply (llm_chain self) (map_inputs self docs kwargs) callbacks
      = apply (llm_chain self) (map_inputs self docs' kwargs) callbacks.
Proof.
  intros Hbodies.
  assert (map_inputs self docs kwargs = map_inputs self docs' kwargs) as Hsame.
  { unfold map_inputs.
    change (fun d : Document =>
              dict_update (<[document_variable_name self := VStr (page_content d)]> ∅)
                kwargs)
      with ((fun s : string =>
               dict_update (<[document_variable_name self := VStr s]> ∅) kwargs)
            ∘ page_content).
    by rewrite !list_fmap_compose, Hbodies. }
  split; [done|]. split.
  - by rewrite !amap_inputs_map_inputs.
  - intros Callbacks apply callbacks. by rewrite Hsame.
Qed.

(** ** The helper that compiles a document *)

(** X12: [_compile_document] reads two keys and nothing else. Without
    "context" it raises [KeyError] for it; with "context" and without
    "page_content" it raises [KeyError] for that; and two records that
    agree on these two keys compile to the same result, whatever other
    fields they carry. *)
Theorem compile_document_reads_two_keys (inputs inputs' : gmap string value) :
  (inputs !! DOCUMENTS_KEY = None →
   _compile_document inputs = Raise (KeyError DOCUMENTS_KEY))
  ∧ (is_Some (inputs !! DOCUMENTS_KEY) → inputs !! "page_content" = None →
     _compile_document inputs = Raise (KeyError "page_content"))
  ∧ (inputs !! DOCUMENTS_KEY = inputs' !! DOCUMENTS_KEY →
     inputs !! "page_content" = inputs' !! "page_content" →
     _compile_document inputs = _compile_document inputs').
Proof.
  split; [|split].
  - intros Hnone. unfold _compile_document. by rewrite (getitem_None _ _ Hnone).
  - intros [doc Hdoc] Hnone. unfold _compile_document.
    by rewrite (getitem_Some _ _ _ Hdoc), bind_Ok, (getitem_None _ _ Hnone).
  - intros Hdoc Hpc. unfold _compile_document, getitem. by rewrite Hdoc, Hpc.
Qed.

(** ** Failures of the map-documents runnable *)

Section MapDocumentsFailures.

Variables PromptValue Message : Type.
Variable validate_prompt : BasePromptTemplate -> list string -> result unit.
Variable format_document_inputs :
  gmap string value -> BasePromptTemplate -> result (gmap string value).
Variable format_document_inputs_as_list :
  gmap string value -> option BasePromptTemplate -> result (list (gmap string value)).
Variable prompt_invoke : BasePromptTemplate -> Runnable (gmap string value) PromptValue.
Variable StrOutputParser : Runnable Message string.

(** A failure of the model on a record is the failure of the record's
    chain: nothing is compiled. *)
Lemma map_doc_chain_model_failure llm prompt document_prompt (r : gmap string value) e :
  map_content_chain PromptValue Message format_document_inputs prompt_invoke
    StrOutputParser llm prompt document_prompt r = Raise e →
  map_doc_chain PromptValue Message format_document_inputs prompt_invoke
    StrOutputParser llm prompt document_prompt r = Raise e.
Proof.
  intros He. unfold map_doc_chain, with_name.
  rewrite pipe_eq, assign_eq. cbv beta. by rewrite He.
Qed.

(** Each stage of the content chain fails the whole of it. *)
Lemma map_content_chain_stages llm prompt document_prompt (r : gmap string value) :
  map_content_chain PromptValue Message format_document_inputs prompt_invoke
    StrOutputParser llm prompt document_prompt r
  = (formatted ← format_document_inputs r
                   (default default_document_prompt document_prompt);
     prompt_value ← prompt_invoke prompt formatted;
     message ← llm prompt_value;
     StrOutputParser message).
Proof.
  unfold map_content_chain, with_name. rewrite !pipe_eq.
  destruct (format_document_inputs _ _) as [formatted|e]; [|reflexivity].
  rewrite !bind_Ok.
  destruct (prompt_invoke _ _) as [pv|e]; [|reflexivity].
  rewrite !bind_Ok.
  by destruct (llm pv).
Qed.

End MapDocumentsFailures.

(** X13: a prompt the validation refuses stops [create_map_documents_chain]
    itself, with the validation's exception and before any document is
    seen. Of a chain that was created: a failure of the list helper is the
    failure of the chain; an empty list of records gives an empty list of
    documents; and the first record on which the model fails, after
    records that went through, fails the whole invocation with the
    model's exception: no partial list is returned. *)
Theorem map_documents_chain_failures
    (PromptValue Message : Type) validate_prompt format_document_inputs
    format_document_inputs_as_list
    (prompt_invoke : BasePromptTemplate -> Runnable (gmap string value) PromptValue)
    (StrOutputParser : Runnable Message string) llm prompt document_prompt :
  (∀ e, validate_prompt prompt [DOCUMENTS_KEY] = Raise e →
        create_map_documents_chain PromptValue Message validate_prompt
          format_document_inputs format_document_inputs_as_list prompt_invoke
          StrOutputParser llm prompt document_prompt = Raise e)
  ∧ (validate_prompt prompt [DOCUMENTS_KEY] = Ok tt →
     ∃ chain,
       create_map_documents_chain PromptValue Message validate_prompt
         format_document_inputs format_document_inputs_as_list prompt_invoke
         StrOutputParser llm prompt document_prompt = Ok chain
       ∧ (∀ inputs e,
            format_document_inputs_as_list inputs document_prompt = Raise e →
            chain inputs = Raise e)
       ∧ (∀ inputs,
            format_document_inputs_as_list inputs document_prompt = Ok [] →
            chain inputs = Ok [])
       ∧ (∀ inputs good compiled r rest e,
            format_document_inputs_as_list inputs document_prompt
              = Ok (good ++ r :: rest)%list →
            Forall2 (fun r d =>
                       map_doc_chain PromptValue Message format_document_inputs
                         prompt_invoke StrOutputParser llm prompt document_prompt r
                       = Ok d) good compiled →
            map_content_chain PromptValue Message format_document_inputs prompt_invoke
              StrOutputParser llm prompt document_prompt r = Raise e →
            chain inputs = Raise e)).
Proof.
  split.
  - intros e He. unfold create_map_documents_chain. by rewrite He.
  - intros Hvalid. eexists. split.
    { unfold create_map_documents_chain. rewrite Hvalid, bind_Ok. reflexivity. }
    unfold with_name. split; [|split].
    + intros inputs e He. rewrite pipe_eq. cbv beta. by rewrite He.
    + intros inputs Hempty. rewrite pipe_eq. cbv beta. by rewrite Hempty.
    + intros inputs good compiled r rest e Hsplit Hgood Hfail.
      rewrite pipe_eq. cbv beta. rewrite Hsplit, bind_Ok.
      unfold Runnable_map. eapply mapM_first_failure; [exact Hgood|].
      by apply map_doc_chain_model_failure.
Qed.

(** ** The composed runnable, stage by stage *)

(** X14: the collapse step can be folded into the reduce step: the
    composition with a collapse chain is the composition without one
    whose reduce chain first assigns the collapse chain's output to
    "context". *)
Theorem collapse_folds_into_reduce
    (m r c : Runnable (gmap string value) value) (input : gmap string value) :
  create_map_reduce_documents_chain m r (Some c) input
  = create_map_reduce_documents_chain m (RunnablePassthrough_assign "context" c |> r)
      None input.
Proof.
  unfold create_map_reduce_documents_chain, with_name.
  rewrite !pipe_eq. apply bind_assoc.
Qed.

(** X15: a stage that fails ends the composition with its exception: a
    failure of the map chain whatever the collapse and reduce chains
    are, and a failure of the collapse chain on the mapped record
    whatever the reduce chain is. *)
Theorem map_reduce_stage_failures
    (m : Runnable (gmap string value) value) (input : gmap string value) (e : exn) :
  (m input = Raise e →
   ∀ r c, create_map_reduce_documents_chain m r c input = Raise e)
  ∧ (∀ docs c, m input = Ok docs → c (<["context" := docs]> input) = Raise e →
       ∀ r, create_map_reduce_documents_chain m r (Some c) input = Raise e).
Proof.
  split.
  - intros Hm r [c|]; unfold create_map_reduce_documents_chain, with_name;
      rewrite !pipe_eq, assign_eq; by rewrite Hm.
  - intros docs c Hm Hc r. unfold create_map_reduce_documents_chain, with_name.
    rewrite !pipe_eq, assign_eq. rewrite Hm, !bind_Ok, assign_eq. by rewrite Hc.
Qed.

(** X16: the documents of the input reach the collapse and reduce
    chains only through the map chain: two inputs that differ in
    "context" alone and are mapped to the same output give the same
    result. *)
Theorem original_context_is_replaced
    (m r : Runnable (gmap string value) value)
    (c : option (Runnable (gmap string value) value))
    (input input' : gmap string value) :
  (∀ key, key ≠ "context" → input !! key = input' !! key) →
  m input = m input' →
  create_map_reduce_documents_chain m r c input
  = create_map_reduce_documents_chain m r c input'.
Proof.
  intros Hsame Hm.
  assert (∀ v : value, <["context" := v]> input = <["context" := v]> input') as Hrec.
  { intros v. apply map_eq. intros key.
    destruct (decide (key = "context")) as [->|Hkey].
    - by rewrite !lookup_insert_eq.
    - rewrite !lookup_insert_ne by done. by apply Hsame. }
  destruct c as [c|]; unfold create_map_reduce_documents_chain, with_name;
    rewrite !pipe_eq, !assign_eq, <- Hm;
    destruct (m input) as [docs|e]; try reflexivity;
    rewrite !bind_Ok, ?assign_eq, <- ?Hrec; reflexivity.
Qed.

(** ** Declared and returned output keys *)

(** X17: the declared outputs follow the flag. With it set,
    [output_keys] ends with "intermediate_steps" after the keys of the
    base class, and the schema is what [create_model] makes of the name
    "MapReduceDocumentsOutput" and of field definitions whose names are
    the output key and "intermediate_steps", the keys [output_keys] lists
    over the output key alone; "intermediate_steps" is defined as an
    optional list of strings even when the output key has the same name.
    With the flag unset both are what the base class answers. *)
Theorem declared_outputs_follow_the_flag
    (Model : Type) (create_model : string -> gmap string (field_type * value) -> result Model)
    (super_get_output_schema : result Model) (super_output_keys : list string)
    (self_output_key : string) (self : MapReduceDocumentsChain) :
  (return_intermediate_steps self = true →
   output_keys super_output_keys self = (super_output_keys ++ ["intermediate_steps"])%list
   ∧ ∃ definitions,
       get_output_schema Model create_model super_get_output_schema self_output_key self
         = create_model "MapReduceDocumentsOutput" definitions
       ∧ dom definitions = list_to_set (output_keys [self_output_key] self)
       ∧ definitions !! "intermediate_steps" = Some (TListStr, VNone)
       ∧ (self_output_key ≠ "intermediate_steps" →
          definitions !! self_output_key = Some (TStr, VNone)))
  ∧ (return_intermediate_steps self = false →
     output_keys super_output_keys self = super_output_keys
     ∧ get_output_schema Model create_model super_get_output_schema self_output_key self
       = super_get_output_schema).
Proof.
  unfold output_keys, get_output_schema.
  split; intros ->; [|done].
  split; [done|]. eexists. split; [reflexivity|]. split; [|split].
  - rewrite !dom_insert_L, dom_empty_L. cbn. set_solver.
  - apply lookup_insert_eq.
  - intros Hne. by rewrite lookup_insert_ne, lookup_insert_eq.
Qed.

(** X18: what [output_keys] declares is what a successful combination
    returns: with the flag set, the auxiliary dictionary of [combine_docs]
    and of [acombine_docs] always holds a list under "intermediate_steps",
    a key [output_keys] lists. *)
Theorem declared_intermediate_steps_are_returned
    (Callbacks : Type) apply reduce self (docs : list Document) token_max
    (callbacks : Callbacks) (kwargs : gmap string value)
    (super_output_keys : list string) (res : string) (extra : gmap string value) :
  return_intermediate_steps self = true →
  combine_docs Callbacks apply reduce self docs token_max callbacks kwargs = Ok (res, extra)
  ∨ acombine_docs Callbacks apply reduce self docs token_max callbacks kwargs
    = Ok (res, extra) →
  "intermediate_steps" ∈ output_keys super_output_keys self
  ∧ ∃ steps, extra !! "intermediate_steps" = Some (VList steps).
Proof.
  intros Hflag Hok. split.
  { unfold output_keys. rewrite Hflag. set_solver. }
  assert (combine_docs Callbacks apply reduce self docs token_max callbacks kwargs
          = Ok (res, extra)) as Hcombine.
  { destruct Hok as [H|H]; [done|]. by rewrite acombine_docs_combine_docs in H. }
  unfold combine_docs in Hcombine.
  destruct (apply _ _ _) as [map_results|]; [|discriminate].
  rewrite bind_Ok in Hcombine. cbv zeta in Hcombine.
  destruct (result_docs _ _ _) as [rdocs|]; [|discriminate].
  rewrite bind_Ok in Hcombine.
  destruct (reduce _ _ _ _ _) as [[res' extra']|]; [|discriminate].
  rewrite bind_Ok in Hcombine. unfold add_intermediate_steps in Hcombine.
  rewrite Hflag in Hcombine.
  destruct (intermediate_steps _ _) as [steps|]; [|discriminate].
  rewrite bind_Ok in Hcombine. injection Hcombine as <- <-.
  exists steps. apply lookup_insert_eq.
Qed.

(** ** The order of the two migrations *)

Lemma renamed_lookup (values : gmap string value) v key :
  delete "return_map_steps" (<["return_intermediate_steps" := v]> values) !! key =
    if decide (key = "return_map_steps") then None
    else if decide (key = "return_intermediate_steps") then Some v
    else values !! key.
Proof.
  destruct (decide (key = "return_map_steps")) as [->|H1].
  { apply lookup_delete_eq. }
  rewrite lookup_delete_ne by done.
  destruct (decide (key = "return_intermediate_steps")) as [->|H2].
  { apply lookup_insert_eq. }
  by rewrite lookup_insert_ne.
Qed.

Lemma migrated_renamed (values : gmap string value) v rc :
  delete "return_map_steps" (<["return_intermediate_steps" := v]> (migrated values rc))
  = migrated (delete "return_map_steps" (<["return_intermediate_steps" := v]> values)) rc.
Proof.
  apply map_eq. intros key.
  rewrite renamed_lookup, !migrated_lookup, renamed_lookup.
  repeat case_decide; simplify_eq; done.
Qed.

(** X19: the migration of the legacy chain fields and the renaming of
    the legacy flag touch different keys, so their order does not
    matter: either order gives the same configuration, or the same
    exception. *)
Theorem first_two_validators_commute (values : gmap string value) :
  (get_reduce_chain values ≫= get_return_intermediate_steps)
  = (get_return_intermediate_steps values ≫= get_reduce_chain).
Proof.
  destruct (values !! "return_map_steps") as [v|] eqn:Hv.
  - rewrite (get_return_intermediate_steps_present _ _ Hv), bind_Ok.
    set (w := delete "return_map_steps" (<["return_intermediate_steps" := v]> values)).
    assert (∀ key, key ≠ "return_map_steps" → key ≠ "return_intermediate_steps" →
                   w !! key = values !! key) as Hw.
    { intros key H1 H2. unfold w. rewrite renamed_lookup. by rewrite !decide_False. }
    destruct (values !! "combine_document_chain") as [cv|] eqn:Hc.
    + destruct (values !! "reduce_documents_chain") as [rv|] eqn:Hr.
      * rewrite (get_reduce_chain_both values), (get_reduce_chain_both w);
          rewrite ?Hw by done; eauto.
      * rewrite (get_reduce_chain_legacy values cv Hc Hr).
        rewrite (get_reduce_chain_legacy w cv) by (by rewrite Hw).
        unfold dict_get. rewrite (Hw "collapse_document_chain") by done.
        destruct (new_ReduceDocumentsChain _ _) as [rc|e]; [|reflexivity].
        rewrite !bind_Ok.
        rewrite (get_return_intermediate_steps_present _ v)
          by (by rewrite migrated_lookup).
        unfold w. by rewrite migrated_renamed.
    + rewrite (get_reduce_chain_absent values Hc), bind_Ok.
      rewrite (get_reduce_chain_absent w) by (by rewrite Hw).
      by apply get_return_intermediate_steps_present.
  - rewrite (get_return_intermediate_steps_absent _ Hv), bind_Ok.
    destruct (get_reduce_chain_cases values) as [(e & -> & _)|(v1 & Hv1 & Hkeep)].
    + reflexivity.
    + rewrite Hv1, bind_Ok. apply get_return_intermediate_steps_absent.
      by rewrite Hkeep.
Qed.

(** ** Worked instances *)

(** The helper of the map-documents runnable on one record, and on a
    record without a document. *)
Example compile_document_run :
  _compile_document (<["page_content" := VStr "red"]> (<["context" := VDoc doc_red]> ∅))
  = Ok (mkDocument "red" (metadata doc_red)).
Proof. reflexivity. Qed.

Example compile_document_no_context :
  _compile_document (<["page_content" := VStr "red"]> ∅) = Raise (KeyError "context").
Proof. reflexivity. Qed.

(** The rebuilt documents follow the map results: a result too many
    runs past the documents, a result too few gives a shorter list. *)
Example result_docs_surplus :
  result_docs "text" [doc_red] sample_results = Raise IndexError.
Proof. reflexivity. Qed.

Example result_docs_shortfall :
  result_docs "text" sample_docs [<["text" := VStr "Jesse loves red"]> ∅]
  = Ok [mkDocument "Jesse loves red" (metadata doc_red)].
Proof. reflexivity. Qed.

Example result_docs_no_result_key :
  result_docs "answer" sample_docs sample_results = Raise (KeyError "answer").
Proof. reflexivity. Qed.

(** The composed runnable on the sample record, with and without a
    collapse chain that keeps the first document only. *)
Example map_reduce_run :
  create_map_reduce_documents_chain sample_map_chain sample_reduce_chain None sample_inputs
  = Ok (VList [VList [VDoc doc_red; VDoc doc_green]; VStr "Who loves green?"]).
Proof. reflexivity. Qed.

Example map_collapse_reduce_run :
  create_map_reduce_documents_chain sample_map_chain sample_reduce_chain
    (Some (fun rec => Ok (VList [VDoc doc_red]))) sample_inputs
  = Ok (VList [VList [VDoc doc_red]; VStr "Who loves green?"]).
Proof. reflexivity. Qed.

(** The legacy flag is renamed. *)
Example return_map_steps_renamed :
  get_return_intermediate_steps (<["return_map_steps" := VBool true]> ∅)
  = Ok (<["return_intermediate_steps" := VBool true]> ∅).
Proof. vm_compute. reflexivity. Qed.

(** Without a model-invocation object the third validator fails on the
    lookup itself, which is not a validation error. *)
Example no_llm_chain :
  new_MapReduceDocumentsChain no_inherited_fields
    (<["reduce_documents_chain" := VChain stuff_chain]> ∅)
  = Raise (KeyError "llm_chain").
Proof. reflexivity. Qed.

(** A legacy key that is not a chain is rejected by the reduce chain it
    would be wrapped in. *)
Example legacy_field_not_a_chain :
  new_MapReduceDocumentsChain no_inherited_fields
    (<["combine_document_chain" := VStr "stuff"]>
       (<["llm_chain" := VLLMChain sample_llm_chain]> ∅))
  = Raise (ValidationError "__root__"
             (Some (ValidationError "combine_documents_chain" None))).
Proof. reflexivity. Qed.

(** A collapse sub-chain, when there is one, is what the property
    answers with. *)
Example collapse_document_chain_present :
  collapse_document_chain
    (mkMapReduceDocumentsChain sample_llm_chain
       (ReduceDocumentsChain stuff_chain (Some collapse_chain)) "context" false)
  = (Ok collapse_chain,
     mkMapReduceDocumentsChain sample_llm_chain
       (ReduceDocumentsChain stuff_chain (Some collapse_chain)) "context" false).
Proof. reflexivity. Qed.

(** The whole combination on the two sample documents, with an extra
    field the caller passes. *)
Example combine_docs_run :
  combine_docs unit echo_apply join_combine_docs (sample_chain true) sample_docs None tt
    (<["question" := VStr "Who loves green?"]> ∅)
  = Ok ("Jesse loves red; Jamal loves green",
        <["intermediate_steps" := VList (VStr <$> sample_bodies)]> ∅).
Proof. vm_compute. reflexivity. Qed.

(** The map step on the two sample documents, through the runnable and
    through the legacy chain. *)
Lemma map_step_keeps_length_and_metadata_witness :
  (∃ chain out,
     create_map_documents_chain string string sample_validate_prompt
       sample_format_document_inputs sample_format_document_inputs_as_list
       sample_prompt_invoke sample_parser sample_llm sample_prompt None = Ok chain
     ∧ chain sample_inputs = Ok out
     ∧ length out = length sample_docs
     ∧ ∀ i d, sample_docs !! i = Some d →
         ∃ s, sample_answers !! i = Some s ∧ out !! i = Some (mkDocument s (metadata d)))
  ∧
  (∃ out,
     result_docs "text" sample_docs sample_results = Ok out
     ∧ combine_docs unit echo_apply join_combine_docs (sample_chain true) sample_docs
         None tt ∅ =
         (join_combine_docs (ReduceDocumentsChain stuff_chain None) out None tt ∅
          ≫= add_intermediate_steps (sample_chain true) "text" sample_results)
     ∧ length out = length sample_docs
     ∧ ∀ i d, sample_docs !! i = Some d →
         ∃ s, sample_bodies !! i = Some s ∧ out !! i = Some (mkDocument s (metadata d))).
Proof.
  split.
  - apply (proj1 map_step_keeps_length_and_metadata string string
             sample_validate_prompt sample_format_document_inputs
             sample_format_document_inputs_as_list sample_prompt_invoke sample_parser
             sample_llm sample_prompt None sample_inputs sample_docs sample_records
             sample_answers).
    + reflexivity.
    + reflexivity.
    + repeat constructor.
    + repeat constructor.
  - apply (proj2 map_step_keeps_length_and_metadata unit echo_apply join_combine_docs
             (sample_chain true) sample_docs None tt ∅ sample_results sample_bodies).
    + reflexivity.
    + reflexivity.
    + repeat constructor.
Defined.

(** The raw outputs are surfaced with the flag set, and left out with
    the flag unset. *)
Lemma intermediate_steps_surfaced_witness :
  combine_docs unit echo_apply join_combine_docs (sample_chain true) sample_docs None tt ∅
    = Ok ("Jesse loves red; Jamal loves green",
          <["intermediate_steps" := VList (VStr <$> sample_bodies)]> ∅)
  ∧ acombine_docs unit echo_apply join_combine_docs (sample_chain false) sample_docs
      None tt ∅
    = Ok ("Jesse loves red; Jamal loves green", ∅).
Proof.
  split.
  - apply (intermediate_steps_surfaced unit echo_apply echo_apply join_combine_docs
             join_combine_docs (sample_chain true) sample_docs None tt ∅ sample_results
             sample_bodies "Jesse loves red; Jamal loves green" ∅);
      [reflexivity | repeat constructor | reflexivity | reflexivity].
  - apply (intermediate_steps_surfaced unit echo_apply echo_apply join_combine_docs
             join_combine_docs (sample_chain false) sample_docs None tt ∅ sample_results
             sample_bodies "Jesse loves red; Jamal loves green" ∅);
      [reflexivity | repeat constructor | reflexivity | reflexivity].
Defined.

(** The two variants over one and the same echo model and joining
    reduce chain. *)
Lemma acombine_docs_agrees_witness :
  amap_inputs (sample_chain true) sample_docs ∅ = map_inputs (sample_chain true) sample_docs ∅
  ∧ echo_apply sample_llm_chain (amap_inputs (sample_chain true) sample_docs ∅) tt
    = echo_apply sample_llm_chain (map_inputs (sample_chain true) sample_docs ∅) tt
  ∧ (echo_apply sample_llm_chain (amap_inputs (sample_chain true) sample_docs ∅) tt
       ≫= result_docs "text" sample_docs)
    = (echo_apply sample_llm_chain (map_inputs (sample_chain true) sample_docs ∅) tt
       ≫= result_docs "text" sample_docs)
  ∧ acombine_docs unit echo_apply join_combine_docs (sample_chain true) sample_docs None tt ∅
    = combine_docs unit echo_apply join_combine_docs (sample_chain true) sample_docs None tt ∅.
Proof.
  apply (acombine_docs_agrees unit echo_apply echo_apply join_combine_docs
           join_combine_docs (sample_chain true) sample_docs None tt ∅);
    intros; reflexivity.
Defined.

(** The caller's own "context" is in the record of the second document
    instead of its body, and it is what the echoing model answers with
    for both documents. *)
Lemma kwargs_override_document_variable_witness :
  (∃ rec,
     map_inputs (sample_chain true) sample_docs (<["context" := VStr "mine"]> ∅) !! 1
       = Some rec
     ∧ amap_inputs (sample_chain true) sample_docs (<["context" := VStr "mine"]> ∅) !! 1
       = Some rec
     ∧ rec !! "context" = Some (VStr "mine")
     ∧ ∀ k w, (<["context" := VStr "mine"]> ∅ : gmap string value) !! k = Some w →
              rec !! k = Some w)
  ∧ combine_docs unit echo_apply join_combine_docs (sample_chain true) sample_docs None tt
      (<["context" := VStr "mine"]> ∅)
    = Ok ("mine; mine", <["intermediate_steps" := VList [VStr "mine"; VStr "mine"]]> ∅)
  ∧ acombine_docs unit failing_apply join_combine_docs (sample_chain true) sample_docs
      None tt (<["context" := VStr "mine"]> ∅)
    = Raise (Upstream "model").
Proof.
  assert ((<["context" := VStr "mine"]> ∅ : gmap string value)
            !! document_variable_name (sample_chain true) = Some (VStr "mine"))
    as Hmine by reflexivity.
  assert (sample_docs !! 1 = Some doc_green) as Hdoc by reflexivity.
  destruct (kwargs_override_document_variable (sample_chain true) sample_docs
              (<["context" := VStr "mine"]> ∅) (VStr "mine") 1 doc_green Hmine Hdoc)
    as (Hrec & _ & _ & Hcalls).
  split; [exact Hrec|]. split.
  - rewrite (proj1 (Hcalls unit echo_apply join_combine_docs None tt)).
    vm_compute. reflexivity.
  - refine (proj2 (proj2 (proj2 (Hcalls unit failing_apply join_combine_docs None tt))
                     (Upstream "model") _)).
    reflexivity.
Defined.

(** The composition with a collapse chain that reads back "context". *)
Lemma create_map_reduce_documents_chain_identity_collapse_witness :
  create_map_reduce_documents_chain sample_map_chain sample_reduce_chain None sample_inputs
  = create_map_reduce_documents_chain sample_map_chain sample_reduce_chain
      (Some identity_collapse) sample_inputs.
Proof.
  apply (create_map_reduce_documents_chain_identity_collapse sample_map_chain
           sample_reduce_chain identity_collapse sample_inputs).
  intros rec v Hv. unfold identity_collapse, getitem. rewrite Hv. reflexivity.
Defined.

(** Both fields at once are refused; the legacy fields alone are
    migrated and the chain is constructed. *)
Lemma legacy_combine_chain_migrated_witness :
  new_MapReduceDocumentsChain no_inherited_fields conflicting_values
    = Raise (ValidationError "__root__" (Some (ValueError both_chains_message)))
  ∧ get_reduce_chain legacy_values
    = Ok (migrated legacy_values (ReduceDocumentsChain stuff_chain (Some collapse_chain)))
  ∧ new_MapReduceDocumentsChain no_inherited_fields legacy_values
    = Ok (mkMapReduceDocumentsChain sample_llm_chain
            (ReduceDocumentsChain stuff_chain (Some collapse_chain)) "context" false).
Proof.
  split; [|split].
  - apply (proj1 (legacy_combine_chain_migrated no_inherited_fields conflicting_values));
      eexists; reflexivity.
  - apply (proj2 (legacy_combine_chain_migrated no_inherited_fields legacy_values)
             stuff_chain (Some collapse_chain)); reflexivity.
  - destruct (proj2 (legacy_combine_chain_migrated no_inherited_fields legacy_values)
                stuff_chain (Some collapse_chain))
      as (_ & _ & _ & _ & _ & -> & _); [reflexivity..|].
    vm_compute. reflexivity.
Defined.


(** Both properties on a chain that reduces with a stuff chain. *)
Lemma compatibility_properties_read_only_witness :
  (collapse_document_chain stuff_only_chain).1
    = Raise (ValueError (no_attribute_message stuff_chain))
  ∧ (combine_document_chain stuff_only_chain).1
    = Raise (ValueError (no_attribute_message stuff_chain))
  ∧ Fmt (VType "StuffDocumentsChain") ∈ no_attribute_message stuff_chain.
Proof.
  apply (proj2 (proj2 (compatibility_properties_read_only stuff_only_chain))).
  reflexivity.
Defined.

(** The sample chain has no collapse sub-chain. *)
Lemma collapse_document_chain_falls_back_witness :
  collapse_document_chain (sample_chain false) = (Ok stuff_chain, sample_chain false)
  ∧ combine_document_chain (sample_chain false) = (Ok stuff_chain, sample_chain false).
Proof.
  apply (collapse_document_chain_falls_back (sample_chain false) stuff_chain).
  reflexivity.
Defined.

(** The legacy flag replaces the canonical one; an empty configuration
    is left alone. *)
Lemma return_map_steps_renamed_over_witness :
  (∃ values', get_return_intermediate_steps flag_values = Ok values'
     ∧ values' !! "return_intermediate_steps" = Some (VBool true)
     ∧ values' !! "return_map_steps" = None
     ∧ ∀ key, key ≠ "return_intermediate_steps" → key ≠ "return_map_steps" →
              values' !! key = flag_values !! key)
  ∧ get_return_intermediate_steps ∅ = Ok ∅.
Proof.
  split.
  - refine (proj1 (return_map_steps_renamed_over flag_values) (VBool true) _).
    reflexivity.
  - refine (proj2 (return_map_steps_renamed_over ∅) _). reflexivity.
Defined.

(** Each validator on its own output. *)
Lemma validators_idempotent_witness :
  get_reduce_chain
    (migrated legacy_values (ReduceDocumentsChain stuff_chain (Some collapse_chain)))
  = Ok (migrated legacy_values (ReduceDocumentsChain stuff_chain (Some collapse_chain)))
  ∧ get_return_intermediate_steps
      (delete "return_map_steps" (<["return_intermediate_steps" := VBool true]> flag_values))
    = Ok (delete "return_map_steps"
            (<["return_intermediate_steps" := VBool true]> flag_values))
  ∧ get_default_document_variable_name full_values = Ok full_values.
Proof.
  split; [|split].
  - refine (proj1 (validators_idempotent legacy_values _) _). reflexivity.
  - refine (proj1 (proj2 (validators_idempotent flag_values _)) _). reflexivity.
  - refine (proj2 (proj2 (validators_idempotent default_name_values full_values)) _).
    reflexivity.
Defined.

Lemma missing_llm_chain_is_a_key_error_witness :
  get_default_document_variable_name no_llm_chain_values = Raise (KeyError "llm_chain")
  ∧ new_MapReduceDocumentsChain no_inherited_fields no_llm_chain_values
    = Raise (KeyError "llm_chain").
Proof.
  assert (no_llm_chain_values !! "llm_chain" = None) as Hllm by reflexivity.
  destruct (missing_llm_chain_is_a_key_error no_inherited_fields no_llm_chain_values Hllm)
    as [Hvalidator Hnew].
  split; [exact Hvalidator|]. apply Hnew. reflexivity.
Defined.

Lemma constructed_fields_are_the_supplied_ones_witness :
  new_MapReduceDocumentsChain no_inherited_fields full_values = Ok stuff_only_chain
  ∧ full_values !! "llm_chain" = Some (VLLMChain (llm_chain stuff_only_chain))
  ∧ (∀ r, full_values !! "reduce_documents_chain" = Some r →
          r = VChain (reduce_documents_chain stuff_only_chain))
  ∧ (∀ name, full_values !! "document_variable_name" = Some name →
             name = VStr (document_variable_name stuff_only_chain)).
Proof.
  assert (new_MapReduceDocumentsChain no_inherited_fields full_values
          = Ok stuff_only_chain) as Hnew by reflexivity.
  split; [exact Hnew|].
  exact (constructed_fields_are_the_supplied_ones no_inherited_fields full_values
           stuff_only_chain Hnew).
Defined.

Lemma constructed_flag_witness :
  new_MapReduceDocumentsChain no_inherited_fields flag_values
    = Ok (mkMapReduceDocumentsChain sample_llm_chain stuff_chain "context" true)
  ∧ return_intermediate_steps
      (mkMapReduceDocumentsChain sample_llm_chain stuff_chain "context" true) = true
  ∧ new_MapReduceDocumentsChain no_inherited_fields full_values = Ok stuff_only_chain
  ∧ return_intermediate_steps stuff_only_chain = false.
Proof.
  assert (new_MapReduceDocumentsChain no_inherited_fields flag_values
          = Ok (mkMapReduceDocumentsChain sample_llm_chain stuff_chain "context" true))
    as Hflag by (vm_compute; reflexivity).
  assert (new_MapReduceDocumentsChain no_inherited_fields full_values
          = Ok stuff_only_chain) as Hfull by reflexivity.
  split; [exact Hflag|]. split.
  { refine (proj1 (constructed_flag no_inherited_fields flag_values _ Hflag) true _).
    reflexivity. }
  split; [exact Hfull|].
  refine (proj2 (proj2 (constructed_flag no_inherited_fields full_values _ Hfull)) _ _);
    reflexivity.
Defined.

Lemma legacy_fields_round_trip_witness :
  combine_document_chain composite_chain = (Ok stuff_chain, composite_chain)
  ∧ collapse_document_chain composite_chain = (Ok collapse_chain, composite_chain).
Proof.
  refine (legacy_fields_round_trip no_inherited_fields legacy_values composite_chain
            stuff_chain (Some collapse_chain) _ _ _);
    [reflexivity | reflexivity | vm_compute; reflexivity].
Defined.

(** One result for two documents, and three results for two. *)
Lemma result_docs_follow_map_results_witness :
  result_docs "text" sample_docs [<["text" := VStr "Jesse loves red"]> ∅]
    = Ok [mkDocument "Jesse loves red" (metadata doc_red)]
  ∧ combine_docs unit
      (fixed_apply (sample_results ++ [<["text" := VStr "one more"]> ∅])%list)
      join_combine_docs (sample_chain true) sample_docs None tt ∅
    = Raise IndexError.
Proof.
  split.
  - refine (proj1 (proj1 (result_docs_follow_map_results unit
                            (fixed_apply [<["text" := VStr "Jesse loves red"]> ∅])
                            join_combine_docs (sample_chain true) sample_docs None tt ∅
                            [<["text" := VStr "Jesse loves red"]> ∅]
                            ["Jesse loves red"] _ _) _));
      [reflexivity | repeat constructor | cbn; lia].
  - refine (proj2 (proj2 (result_docs_follow_map_results unit
                            (fixed_apply
                               (sample_results ++ [<["text" := VStr "one more"]> ∅])%list)
                            join_combine_docs (sample_chain true) sample_docs None tt ∅
                            (sample_results ++ [<["text" := VStr "one more"]> ∅])%list
                            (sample_bodies ++ ["one more"])%list _ _) _));
      [reflexivity | repeat constructor | cbn; lia].
Defined.

(** The second result lacks the result key. *)
Lemma missing_result_key_is_a_key_error_witness :
  combine_docs unit (fixed_apply [<["text" := VStr "Jesse loves red"]> ∅; ∅])
    join_combine_docs (sample_chain true) sample_docs None tt ∅
    = Raise (KeyError "text")
  ∧ acombine_docs unit (fixed_apply [<["text" := VStr "Jesse loves red"]> ∅; ∅])
      join_combine_docs (sample_chain true) sample_docs None tt ∅
    = Raise (KeyError "text").
Proof.
  destruct (missing_result_key_is_a_key_error unit
              (fixed_apply [<["text" := VStr "Jesse loves red"]> ∅; ∅])
              join_combine_docs (sample_chain true) sample_docs None tt ∅
              [<["text" := VStr "Jesse loves red"]> ∅] ["Jesse loves red"] ∅ [])
    as [Hsync Hasync]; [cbn; lia | repeat constructor | reflexivity |].
  split; [apply Hsync | apply Hasync]; reflexivity.
Defined.

(** A failing model, and a failing reduce chain after an echoing model. *)
Lemma collaborator_failures_propagate_witness :
  combine_docs unit failing_apply join_combine_docs (sample_chain true) sample_docs
    None tt ∅ = Raise (Upstream "model")
  ∧ acombine_docs unit echo_apply failing_combine_docs (sample_chain true) sample_docs
      None tt ∅ = Raise (Upstream "reduce").
Proof.
  split.
  - refine (proj1 (proj1 (collaborator_failures_propagate unit failing_apply
                            join_combine_docs (sample_chain true) sample_docs None tt ∅
                            (Upstream "model")) _)).
    reflexivity.
  - refine (proj2 (proj2 (collaborator_failures_propagate unit echo_apply
                            failing_combine_docs (sample_chain true) sample_docs None tt ∅
                            (Upstream "reduce"))
                     sample_results
                     [mkDocument "Jesse loves red" (metadata doc_red);
                      mkDocument "Jamal loves green" (metadata doc_green)] _ _ _));
      reflexivity.
Defined.

(** The record of the second document, with a question passed along. *)
Lemma map_inputs_carry_the_body_witness :
  length (map_inputs (sample_chain true) sample_docs
            (<["question" := VStr "Who loves green?"]> ∅)) = length sample_docs
  ∧ ∃ rec,
      map_inputs (sample_chain true) sample_docs
        (<["question" := VStr "Who loves green?"]> ∅) !! 1 = Some rec
      ∧ amap_inputs (sample_chain true) sample_docs
          (<["question" := VStr "Who loves green?"]> ∅) !! 1 = Some rec
      ∧ rec !! "context" = Some (VStr "Jamal loves green")
      ∧ ∀ k, k ≠ "context" →
             rec !! k = (<["question" := VStr "Who loves green?"]> ∅ : gmap string value) !! k.
Proof.
  refine (map_inputs_carry_the_body (sample_chain true) sample_docs
            (<["question" := VStr "Who loves green?"]> ∅) 1 doc_green _ _);
    reflexivity.
Defined.

Lemma map_inputs_ignore_metadata_witness :
  map_inputs (sample_chain true) sample_docs ∅ = map_inputs (sample_chain true) other_docs ∅
  ∧ amap_inputs (sample_chain true) sample_docs ∅
    = amap_inputs (sample_chain true) other_docs ∅
  ∧ ∀ (Callbacks : Type)
      (apply : LLMChain -> list (gmap string value) -> Callbacks ->
               result (list (gmap string value))) (callbacks : Callbacks),
      apply sample_llm_chain (map_inputs (sample_chain true) sample_docs ∅) callbacks
      = apply sample_llm_chain (map_inputs (sample_chain true) other_docs ∅) callbacks.
Proof.
  refine (map_inputs_ignore_metadata (sample_chain true) sample_docs other_docs ∅ _).
  reflexivity.
Defined.

(** Records without a document, without a body, and two records that
    differ in a question only. *)
Lemma compile_document_reads_two_keys_witness :
  _compile_document ∅ = Raise (KeyError "context")
  ∧ _compile_document (<["context" := VDoc doc_red]> ∅) = Raise (KeyError "page_content")
  ∧ _compile_document
      (<["question" := VStr "Who?"]>
         (<["page_content" := VStr "red"]> (<["context" := VDoc doc_red]> ∅)))
    = _compile_document (<["page_content" := VStr "red"]> (<["context" := VDoc doc_red]> ∅)).
Proof.
  split; [|split].
  - refine (proj1 (compile_document_reads_two_keys ∅ ∅) _). reflexivity.
  - refine (proj1 (proj2 (compile_document_reads_two_keys
                            (<["context" := VDoc doc_red]> ∅) ∅)) _ _);
      [eexists; reflexivity | reflexivity].
  - refine (proj2 (proj2 (compile_document_reads_two_keys _ _)) _ _); reflexivity.
Defined.

(** A prompt without "context" is refused at creation; a model that
    fails on the second document fails the invocation. *)
Lemma map_documents_chain_failures_witness :
  create_map_documents_chain string string sample_validate_prompt
    sample_format_document_inputs sample_format_document_inputs_as_list
    sample_prompt_invoke sample_parser sample_llm question_only_prompt None
    = Raise (ValueError [Lit "Prompt must accept "; Fmt (VList [VStr "context"])])
  ∧ ∃ chain,
      create_map_documents_chain string string sample_validate_prompt
        sample_format_document_inputs sample_format_document_inputs_as_list
        sample_prompt_invoke sample_parser picky_llm sample_prompt None = Ok chain
      ∧ chain ∅ = Raise (KeyError "context")
      ∧ chain (<["context" := VList []]> ∅) = Ok []
      ∧ chain sample_inputs = Raise (Upstream "model").
Proof.
  split.
  - refine (proj1 (map_documents_chain_failures string string sample_validate_prompt
                     sample_format_document_inputs sample_format_document_inputs_as_list
                     sample_prompt_invoke sample_parser sample_llm question_only_prompt
                     None) _ _).
    reflexivity.
  - destruct (proj2 (map_documents_chain_failures string string sample_validate_prompt
                       sample_format_document_inputs
                       sample_format_document_inputs_as_list sample_prompt_invoke
                       sample_parser picky_llm sample_prompt None))
      as (chain & Hchain & Hhelper & Hempty & Hmodel); [reflexivity|].
    exists chain. split; [exact Hchain|]. split; [|split].
    + apply Hhelper. reflexivity.
    + apply Hempty. reflexivity.
    + apply (Hmodel sample_inputs [<["context" := VDoc doc_red]> sample_inputs]
               [mkDocument "Extract: Jesse loves red" (metadata doc_red)]
               (<["context" := VDoc doc_green]> sample_inputs) []);
        [reflexivity | repeat constructor | reflexivity].
Defined.

(** A map chain without documents to read, and a collapse chain that
    fails. *)
Lemma map_reduce_stage_failures_witness :
  create_map_reduce_documents_chain sample_map_chain sample_reduce_chain
    (Some identity_collapse) ∅ = Raise (KeyError "context")
  ∧ create_map_reduce_documents_chain sample_map_chain sample_reduce_chain
      (Some (fun rec => Raise (Upstream "collapse"))) sample_inputs
    = Raise (Upstream "collapse").
Proof.
  split.
  - refine (proj1 (map_reduce_stage_failures sample_map_chain ∅ (KeyError "context"))
              _ _ _).
    reflexivity.
  - refine (proj2 (map_reduce_stage_failures sample_map_chain sample_inputs
                     (Upstream "collapse"))
              (VList [VDoc doc_red; VDoc doc_green]) _ _ _ _); reflexivity.
Defined.

(** Two inputs with different documents under a map chain that ignores
    them. *)
Lemma original_context_is_replaced_witness :
  create_map_reduce_documents_chain constant_map_chain sample_reduce_chain None
    sample_inputs
  = create_map_reduce_documents_chain constant_map_chain sample_reduce_chain None
      (<["context" := VList []]> sample_inputs).
Proof.
  refine (original_context_is_replaced constant_map_chain sample_reduce_chain None
            sample_inputs (<["context" := VList []]> sample_inputs) _ _).
  - intros key Hkey. by rewrite lookup_insert_ne.
  - reflexivity.
Defined.

(** The declared outputs of the sample chain, with the flag and
    without, under a [create_model] that takes every definition as a
    field. *)
Lemma declared_outputs_follow_the_flag_witness :
  output_keys ["output_text"] (sample_chain true) = ["output_text"; "intermediate_steps"]
  ∧ get_output_schema (gmap string (field_type * value)) (fun _ definitions => Ok definitions)
      (Ok ∅) "output_text" (sample_chain true)
    = Ok (<["intermediate_steps" := (TListStr, VNone)]>
            (<["output_text" := (TStr, VNone)]> ∅))
  ∧ output_keys ["output_text"] (sample_chain false) = ["output_text"]
  ∧ get_output_schema (gmap string (field_type * value)) (fun _ definitions => Ok definitions)
      (Ok ∅) "output_text" (sample_chain false)
    = Ok ∅.
Proof.
  destruct (proj1 (declared_outputs_follow_the_flag (gmap string (field_type * value))
                     (fun _ definitions => Ok definitions) (Ok ∅) ["output_text"]
                     "output_text" (sample_chain true)))
    as (Hkeys & _); [reflexivity|].
  destruct (proj2 (declared_outputs_follow_the_flag (gmap string (field_type * value))
                     (fun _ definitions => Ok definitions) (Ok ∅) ["output_text"]
                     "output_text" (sample_chain false)))
    as (Hkeys' & Hschema); [reflexivity|].
  split; [exact Hkeys|]. split; [reflexivity|]. split; [exact Hkeys'|exact Hschema].
Defined.

Lemma declared_intermediate_steps_are_returned_witness :
  "intermediate_steps" ∈ output_keys ["output_text"] (sample_chain true)
  ∧ ∃ steps,
      (<["intermediate_steps" := VList (VStr <$> sample_bodies)]> ∅ : gmap string value)
        !! "intermediate_steps" = Some (VList steps).
Proof.
  refine (declared_intermediate_steps_are_returned unit echo_apply join_combine_docs
            (sample_chain true) sample_docs None tt ∅ ["output_text"]
            "Jesse loves red; Jamal loves green"
            (<["intermediate_steps" := VList (VStr <$> sample_bodies)]> ∅) _ _).
  - reflexivity.
  - left. vm_compute. reflexivity.
Defined.
